(** * nomad-comfort-map: build_dataset.py

    A shallow embedding of [build_dataset.py]: the unit conversions, the
    geocoding pass, the climate fetcher, the per-city loop of [main] with its
    [try]/[except], the emission of the three artifacts, and the filter of the
    page script ([update]).  Python values are a small universe [pyval];
    floats are IEEE binary64 ([PrimFloat.float]); the external services
    (Nominatim, Meteostat) are oracles; printing, file writes and service
    calls are recorded in an explicit world state. *)

From Stdlib Require Import ZArith List String Ascii Bool Lia.
From Stdlib Require Import Floats.
Import ListNotations.
Open Scope string_scope.
Open Scope list_scope.
Open Scope Z_scope.
Set Warnings "-register-all".

(** ** Python values, exceptions *)

Module Py.

(** An exception instance: its class name and [str(e)]. Only instances of
    [Exception] are modelled (the ones [except Exception] matches). *)
Record exn : Type := Exn { exn_class : string; exn_msg : string }.

Inductive result (A : Type) : Type :=
| Ok (a : A)
| Raise (e : exn).
Arguments Ok {A} a.
Arguments Raise {A} e.

Definition bind {A B : Type} (r : result A) (k : A -> result B) : result B :=
  match r with
  | Ok a => k a
  | Raise e => Raise e
  end.

Declare Scope py_scope.
Delimit Scope py_scope with py.
Notation "x <- c ;; k" := (bind c (fun x => k))
  (at level 61, c at next level, right associativity) : py_scope.

Definition OverflowError (msg : string) : exn := Exn "OverflowError" msg.
Definition ZeroDivisionError (msg : string) : exn := Exn "ZeroDivisionError" msg.
Definition TypeError (msg : string) : exn := Exn "TypeError" msg.
Definition KeyError (msg : string) : exn := Exn "KeyError" msg.

(** The values the script manipulates: [None], floats, ints, strings and
    dicts with string keys (insertion-ordered, as Python dicts are). *)
Inductive pyval : Type :=
| PyNone
| PyFloat (f : float)
| PyInt (z : Z)
| PyStr (s : string)
| PyDict (d : list (string * pyval)).

(** *** binary64 arithmetic of the runtime *)

(** The least magnitude that rounds (to nearest, ties to even) to an infinite
    double: the midpoint of [DBL_MAX] and [2^1024]. *)
Definition DBL_OVERFLOW : Z := 2 ^ 1024 - 2 ^ 970.

(** The double nearest to [n / d], with sign [s] ([n >= 0]). *)
Definition sf_of_ratio (s : bool) (n : Z) (d : positive) : spec_float :=
  match n with
  | Zpos m => SFdiv prec emax (S754_finite s m 0) (S754_finite false d 0)
  | _ => S754_zero s
  end.

(** [PyLong_AsDouble]: correctly rounded, [OverflowError] beyond the range. *)
Definition int_to_float (a : Z) : result float :=
  if DBL_OVERFLOW <=? Z.abs a
  then Raise (OverflowError "int too large to convert to float")
  else Ok (SF2Prim (sf_of_ratio (a <? 0) (Z.abs a) 1)).

(** [int / int] ([long_true_divide]): the correctly rounded quotient. *)
Definition int_true_divide (a b : Z) : result float :=
  if b =? 0 then Raise (ZeroDivisionError "division by zero")
  else if DBL_OVERFLOW * Z.abs b <=? Z.abs a
  then Raise (OverflowError "integer division result too large for a float")
  else Ok (SF2Prim (sf_of_ratio (xorb (a <? 0) (b <? 0)) (Z.abs a)
                                (Z.to_pos (Z.abs b)))).

(** [float / float]: only a zero divisor raises. *)
Definition float_div (x y : float) : result float :=
  if (y =? 0)%float then Raise (ZeroDivisionError "float division by zero")
  else Ok (x / y)%float.

(** Round half to even of the rational [a / b] ([b > 0]). *)
Definition round_half_even (a b : Z) : Z :=
  let q := a / b in
  match 2 * (a mod b) ?= b with
  | Lt => q
  | Gt => q + 1
  | Eq => if Z.even q then q else q + 1
  end.

(** [|x| * 10^ndigits] rounded half to even to an integer, for the finite
    double of mantissa [m] and exponent [e]: what [_Py_dg_dtoa] in mode 3
    produces (the decimal digits are exact for the double's value). *)
Definition scaled_digits (m : positive) (e ndigits : Z) : Z :=
  let num := if 0 <=? e then Zpos m * 2 ^ e else Zpos m in
  let den := if 0 <=? e then 1 else 2 ^ (- e) in
  if 0 <=? ndigits
  then round_half_even (num * 10 ^ ndigits) den
  else round_half_even num (den * 10 ^ (- ndigits)).

(** The numerator and denominator of the decimal [n * 10^(-ndigits)]. *)
Definition decimal_num (n ndigits : Z) : Z :=
  if 0 <=? ndigits then n else n * 10 ^ (- ndigits).
Definition decimal_den (ndigits : Z) : Z :=
  if 0 <=? ndigits then 10 ^ ndigits else 1.

(** [double_round]: the decimal string re-read by [_Py_dg_strtod]. *)
Definition double_round (x : float) (ndigits : Z) : float :=
  match Prim2SF x with
  | S754_finite s m e =>
      let n := scaled_digits m e ndigits in
      SF2Prim (sf_of_ratio s (decimal_num n ndigits)
                           (Z.to_pos (decimal_den ndigits)))
  | _ => x
  end.

Definition NDIGITS_MAX : Z := 323.
Definition NDIGITS_MIN : Z := -308.

(** [float.__round__(ndigits)]: NaN, infinities and zeros round to
    themselves; [OverflowError] when the re-read decimal overflows. *)
Definition float_round (x : float) (ndigits : Z) : result float :=
  match Prim2SF x with
  | S754_finite s m e =>
      if NDIGITS_MAX <? ndigits then Ok x
      else if ndigits <? NDIGITS_MIN then Ok (0 * x)%float
      else if DBL_OVERFLOW * decimal_den ndigits
              <=? decimal_num (scaled_digits m e ndigits) ndigits
      then Raise (OverflowError "rounded value too large to represent")
      else Ok (double_round x ndigits)
  | _ => Ok x
  end.

(** *** operators on values *)

Fixpoint str_repeat (s : string) (n : nat) : string :=
  match n with
  | O => ""
  | S k => (s ++ str_repeat s k)%string
  end.

Definition unsupported (op : string) : exn :=
  TypeError ("unsupported operand type(s) for " ++ op)%string.

Definition py_mul (a b : pyval) : result pyval :=
  match a, b with
  | PyInt x, PyInt y => Ok (PyInt (x * y))
  | PyFloat x, PyFloat y => Ok (PyFloat (x * y))
  | PyFloat x, PyInt y =>
      (y' <- int_to_float y ;; Ok (PyFloat (x * y')))%py
  | PyInt x, PyFloat y =>
      (x' <- int_to_float x ;; Ok (PyFloat (x' * y)))%py
  | PyStr s, PyInt n | PyInt n, PyStr s => Ok (PyStr (str_repeat s (Z.to_nat n)))
  | _, _ => Raise (unsupported "*")
  end.

Definition py_truediv (a b : pyval) : result pyval :=
  match a, b with
  | PyInt x, PyInt y =>
      (q <- int_true_divide x y ;; Ok (PyFloat q))%py
  | PyFloat x, PyFloat y =>
      (q <- float_div x y ;; Ok (PyFloat q))%py
  | PyFloat x, PyInt y =>
      (y' <- int_to_float y ;; q <- float_div x y' ;; Ok (PyFloat q))%py
  | PyInt x, PyFloat y =>
      (x' <- int_to_float x ;; q <- float_div x' y ;; Ok (PyFloat q))%py
  | _, _ => Raise (unsupported "/")
  end.

Definition py_add (a b : pyval) : result pyval :=
  match a, b with
  | PyInt x, PyInt y => Ok (PyInt (x + y))
  | PyFloat x, PyFloat y => Ok (PyFloat (x + y))
  | PyFloat x, PyInt y =>
      (y' <- int_to_float y ;; Ok (PyFloat (x + y')))%py
  | PyInt x, PyFloat y =>
      (x' <- int_to_float x ;; Ok (PyFloat (x' + y)))%py
  | PyStr s, PyStr t => Ok (PyStr (s ++ t)%string)
  | _, _ => Raise (unsupported "+")
  end.

(** The builtin [round(v, ndigits)]. *)
Definition py_round (v : pyval) (ndigits : Z) : result pyval :=
  match v with
  | PyFloat x => (r <- float_round x ndigits ;; Ok (PyFloat r))%py
  | PyInt z =>
      if 0 <=? ndigits then Ok (PyInt z)
      else Ok (PyInt (round_half_even z (10 ^ (- ndigits)) * 10 ^ (- ndigits)))
  | _ => Raise (TypeError "type doesn't define __round__ method")
  end.

(** [c is None or (isinstance(c, float) and math.isnan(c))] *)
Definition is_none_or_nan (c : pyval) : bool :=
  match c with
  | PyNone => true
  | PyFloat f => PrimFloat.is_nan f
  | _ => false
  end.

End Py.
Import Py.
Open Scope py_scope.

(** ** Constants *)

Definition DATA_CSV : string := "cities_200.csv".
Definition OUT_CSV : string := "dataset_monthly_normals.csv".
Definition OUT_JSON : string := "dataset_monthly_normals.json".
Definition OUT_HTML : string := "comfort_map_dropdown.html".

Definition COMFORT_MIN_F : Z := 50.
Definition COMFORT_MAX_F : Z := 75.

Definition MONTHS : list string :=
  ["Jan";"Feb";"Mar";"Apr";"May";"Jun";"Jul";"Aug";"Sep";"Oct";"Nov";"Dec"].

(** ** Unit conversions *)

Definition c_to_f (c : pyval) : result pyval :=
  if is_none_or_nan c then Ok PyNone
  else
    a <- py_mul c (PyInt 9) ;;
    b <- py_truediv a (PyInt 5) ;;
    s <- py_add b (PyInt 32) ;;
    py_round s 1.

Definition mm_to_in (mm : pyval) : result pyval :=
  if is_none_or_nan mm then Ok PyNone
  else
    q <- py_truediv mm (PyFloat 0x1.9666666666666p+4) ;;
    py_round q 2.


(** ** Dicts, lists, tables *)

(** Insertion-ordered dicts: [d[k] = v] overwrites in place or appends. *)
Fixpoint dict_set (d : list (string * pyval)) (k : string) (v : pyval)
  : list (string * pyval) :=
  match d with
  | [] => [(k, v)]
  | (k', v') :: rest =>
      if String.eqb k' k then (k, v) :: rest else (k', v') :: dict_set rest k v
  end.

Fixpoint dict_get (d : list (string * pyval)) (k : string) : option pyval :=
  match d with
  | [] => None
  | (k', v) :: rest => if String.eqb k' k then Some v else dict_get rest k
  end.

Definition dict_keys (d : list (string * pyval)) : list string := map fst d.

(** [v[k]] *)
Definition py_getitem (v : pyval) (k : string) : result pyval :=
  match v with
  | PyDict d =>
      match dict_get d k with
      | Some x => Ok x
      | None => Raise (KeyError k)
      end
  | _ => Raise (TypeError "object is not subscriptable")
  end.

(** Truth value of an object, as [if not normals] tests it. *)
Definition py_truthy (v : pyval) : bool :=
  match v with
  | PyNone => false
  | PyFloat f => negb (f =? 0)%float
  | PyInt z => negb (z =? 0)
  | PyStr s => negb (String.eqb s "")
  | PyDict d => match d with [] => false | _ => true end
  end.

(** [range(a, b)] *)
Definition py_range (a b : Z) : list Z :=
  map (fun k => a + Z.of_nat k) (seq 0 (Z.to_nat (b - a))).

(** [l[i]] on a list, negative indices counting from the end. *)
Definition list_getitem {A : Type} (l : list A) (i : Z) : result A :=
  let n := Z.of_nat (List.length l) in
  let j := if i <? 0 then i + n else i in
  if (j <? 0) || (n <=? j) then Raise (Exn "IndexError" "list index out of range")
  else match nth_error l (Z.to_nat j) with
       | Some x => Ok x
       | None => Raise (Exn "IndexError" "list index out of range")
       end.

Definition has_column (name : string) (columns : list string) : bool :=
  existsb (String.eqb name) columns.

(** [pd.isna] on a scalar cell. *)
Definition pd_isna (v : pyval) : bool :=
  match v with
  | PyNone => true
  | PyFloat f => PrimFloat.is_nan f
  | _ => false
  end.

(** A row of the cities table; [Lat] and [Lon] are what [row.get] returns
    ([None] or NaN when the cell is missing). *)
Record CityRow : Type := {
  City : string;
  Country : string;
  Lat : pyval;
  Lon : pyval
}.

Record CitiesTable : Type := {
  columns : list string;
  rows : list CityRow
}.

(** [df[name] = ...] keeps an existing column in place, else appends it. *)
Definition set_column (name : string) (cols : list string) : list string :=
  if has_column name cols then cols else cols ++ [name].

(** The frame [Normals(point).fetch()] returns: index labels (the months
    [1..12], each once), column names, and the numeric cells (NaN when a
    value is missing). *)
Record Frame : Type := {
  frame_index : list Z;
  frame_columns : list string;
  frame_at : Z -> string -> float
}.

Definition frame_empty (df : Frame) : bool :=
  match frame_index df, frame_columns df with
  | [], _ | _, [] => true
  | _, _ => false
  end.

(** [df.loc[i, col]] *)
Definition frame_loc (df : Frame) (i : Z) (col : string) : result pyval :=
  if negb (existsb (Z.eqb i) (frame_index df))
  then Raise (KeyError "index label")
  else if negb (has_column col (frame_columns df))
  then Raise (KeyError col)
  else Ok (PyFloat (frame_at df i col)).

(** A geocoder answer ([location.latitude], [location.longitude]). *)
Record Location : Type := { latitude : float; longitude : float }.

(** What the script writes to a file. *)
Inductive FileData : Type :=
| CitiesCsv (t : CitiesTable)
| RecordsCsv (records : list pyval)
| JsonText (payload : list pyval)
| HtmlPage (city_data : list pyval) (months : list string)
           (comfort_min comfort_max : Z).

(** ** The state of a run *)

Record Env : Type := {
  stdout : list string;
  geocoded : list string;
  fetched : list (pyval * pyval);
  written : list (string * FileData);
  records : list pyval;
  json_payload : list pyval
}.

Definition initial_env : Env :=
  {| stdout := []; geocoded := []; fetched := []; written := [];
     records := []; json_payload := [] |}.

(** Computations of the script: the state is kept when an exception is
    raised, as the mutations made inside a [try] block are. *)
Definition M (A : Type) : Type := Env -> Env * result A.

Definition ret {A : Type} (a : A) : M A := fun st => (st, Ok a).

Definition raise {A : Type} (e : exn) : M A := fun st => (st, Raise e).

Definition bindM {A B : Type} (c : M A) (k : A -> M B) : M B :=
  fun st =>
    match c st with
    | (st', Ok a) => k a st'
    | (st', Raise e) => (st', Raise e)
    end.

Definition lift {A : Type} (r : result A) : M A := fun st => (st, r).

Declare Scope m_scope.
Delimit Scope m_scope with m.
Notation "x <~ c ;; k" := (bindM c (fun x => k))
  (at level 61, c at next level, right associativity) : m_scope.
Notation "c ;;; k" := (bindM c (fun _ => k))
  (at level 61, right associativity) : m_scope.
Open Scope m_scope.

(** [try: body except Exception as e: handler(e)] *)
Definition try_except (body : M unit) (handler : exn -> M unit) : M unit :=
  fun st =>
    match body st with
    | (st', Ok tt) => (st', Ok tt)
    | (st', Raise e) => handler e st'
    end.

Definition print (line : string) : M unit :=
  fun st =>
    ({| stdout := stdout st ++ [line]; geocoded := geocoded st;
        fetched := fetched st; written := written st;
        records := records st; json_payload := json_payload st |}, Ok tt).

Definition write_file (name : string) (data : FileData) : M unit :=
  fun st =>
    ({| stdout := stdout st; geocoded := geocoded st;
        fetched := fetched st; written := written st ++ [(name, data)];
        records := records st; json_payload := json_payload st |}, Ok tt).

Definition records_append (r : pyval) : M unit :=
  fun st =>
    ({| stdout := stdout st; geocoded := geocoded st;
        fetched := fetched st; written := written st;
        records := records st ++ [r]; json_payload := json_payload st |},
     Ok tt).

Definition json_payload_append (r : pyval) : M unit :=
  fun st =>
    ({| stdout := stdout st; geocoded := geocoded st;
        fetched := fetched st; written := written st;
        records := records st; json_payload := json_payload st ++ [r] |},
     Ok tt).

(** [records = []; json_payload = []] *)
Definition reset_accumulators : M unit :=
  fun st =>
    ({| stdout := stdout st; geocoded := geocoded st;
        fetched := fetched st; written := written st;
        records := []; json_payload := [] |}, Ok tt).

(** Sequential [for x in xs: body(x)]; an exception leaves the loop. *)
Fixpoint for_each {A : Type} (xs : list A) (body : A -> M unit) : M unit :=
  match xs with
  | [] => ret tt
  | x :: rest => body x ;;; for_each rest body
  end.

(** The latest content written under [name]. *)
Fixpoint last_written (name : string) (w : list (string * FileData))
  : option FileData :=
  match w with
  | [] => None
  | (n, d) :: rest =>
      match last_written name rest with
      | Some d' => Some d'
      | None => if String.eqb n name then Some d else None
      end
  end.

(** [json.load] of a file written by [json.dump]: the text round trip gives
    back the dumped value. *)
Definition read_json (name : string) : M (list pyval) :=
  fun st =>
    match last_written name (written st) with
    | Some (JsonText payload) => (st, Ok payload)
    | Some _ => (st, Raise (Exn "JSONDecodeError" name))
    | None => (st, Raise (Exn "FileNotFoundError" name))
    end.

(** Field updates, for stating what a computation leaves. *)
Definition set_geocoded (st : Env) (log : list string) : Env :=
  {| stdout := stdout st; geocoded := log; fetched := fetched st;
     written := written st; records := records st;
     json_payload := json_payload st |}.

Definition set_stdout (st : Env) (out : list string) : Env :=
  {| stdout := out; geocoded := geocoded st; fetched := fetched st;
     written := written st; records := records st;
     json_payload := json_payload st |}.

Definition set_fetched (st : Env) (log : list (pyval * pyval)) : Env :=
  {| stdout := stdout st; geocoded := geocoded st; fetched := log;
     written := written st; records := records st;
     json_payload := json_payload st |}.

(** Two states that differ at most in what was printed. *)
Definition same_but_stdout (st1 st2 : Env) : Prop :=
  geocoded st1 = geocoded st2 /\ fetched st1 = fetched st2
  /\ written st1 = written st2 /\ records st1 = records st2
  /\ json_payload st1 = json_payload st2.

(** A computation whose result, apart from the printed lines, does not
    depend on the printed lines. *)
Definition ignores_stdout {A : Type} (c : M A) : Prop :=
  forall st1 st2,
    same_but_stdout st1 st2 ->
    same_but_stdout (fst (c st1)) (fst (c st2)) /\ snd (c st1) = snd (c st2).

(** ** The script *)

Section Program.

(** Nominatim behind the rate limiter: the answer to a query, which may
    depend on the queries made before; [None] is "no match". *)
Variable geocode_service : list string -> string -> option Location.

(** Meteostat: what [Normals(Point(lat, lon)).fetch()] does, given the
    points fetched before: raises, or returns [None] or a frame. *)
Variable normals_service :
  list (pyval * pyval) -> pyval -> pyval -> result (option Frame).

Definition geocode (query : string) : M (option Location) :=
  fun st =>
    ({| stdout := stdout st; geocoded := geocoded st ++ [query];
        fetched := fetched st; written := written st;
        records := records st; json_payload := json_payload st |},
     Ok (geocode_service (geocoded st) query)).

Definition normals_fetch (lat lon : pyval) : M (option Frame) :=
  fun st =>
    ({| stdout := stdout st; geocoded := geocoded st;
        fetched := fetched st ++ [(lat, lon)]; written := written st;
        records := records st; json_payload := json_payload st |},
     normals_service (fetched st) lat lon).

(** The loop of [geocode_cities], with its two local lists. *)
Fixpoint geocode_rows (rs : list CityRow) (lats lons : list pyval)
  : M (list pyval * list pyval) :=
  match rs with
  | [] => ret (lats, lons)
  | row :: rest =>
      let query := (City row ++ ", " ++ Country row)%string in
      location <~ geocode query ;;
      location <~ match location with
                  | None => geocode (City row)
                  | Some _ => ret location
                  end ;;
      match location with
      | Some l =>
          geocode_rows rest (lats ++ [PyFloat (latitude l)])
                       (lons ++ [PyFloat (longitude l)])
      | None => geocode_rows rest (lats ++ [PyNone]) (lons ++ [PyNone])
      end
  end.

(** [df['Lat'] = lats; df['Lon'] = lons] on the rows. *)
Fixpoint assign_coords (rs : list CityRow) (lats lons : list pyval)
  : result (list CityRow) :=
  match rs, lats, lons with
  | [], [], [] => Ok []
  | r :: rs', a :: lats', o :: lons' =>
      rest <- assign_coords rs' lats' lons' ;;
      Ok ({| City := City r; Country := Country r; Lat := a; Lon := o |}
            :: rest)
  | _, _, _ =>
      Raise (Exn "ValueError" "Length of values does not match length of index")
  end.

Definition geocode_cities (df : CitiesTable) : M CitiesTable :=
  ll <~ geocode_rows (rows df) [] [] ;;
  rs <~ lift (assign_coords (rows df) (fst ll) (snd ll)) ;;
  ret {| columns := set_column "Lon" (set_column "Lat" (columns df));
         rows := rs |}.

(** [{MONTHS[i-1]: conv(df.loc[i, col]) if col in df.columns else None
      for i in ...}], filling [d] in iteration order. *)
Fixpoint monthly_dict (conv : pyval -> result pyval) (df : Frame)
         (col : string) (indices : list Z) (d : list (string * pyval))
  : result (list (string * pyval)) :=
  match indices with
  | [] => Ok d
  | i :: rest =>
      k <- list_getitem MONTHS (i - 1) ;;
      v <- (if has_column col (frame_columns df)
            then (x <- frame_loc df i col ;; conv x)
            else Ok PyNone) ;;
      monthly_dict conv df col rest (dict_set d k v)
  end.

Definition fetch_normals_for_point (lat lon : pyval) : M pyval :=
  df <~ normals_fetch lat lon ;;
  match df with
  | None => ret (PyDict [])
  | Some df =>
      if frame_empty df || (Z.of_nat (List.length (frame_index df)) <? 12)
      then ret (PyDict [])
      else
        tavg_f <~ lift (monthly_dict c_to_f df "tavg" (py_range 1 13) []) ;;
        tmin_f <~ lift (monthly_dict c_to_f df "tmin" (py_range 1 13) []) ;;
        tmax_f <~ lift (monthly_dict c_to_f df "tmax" (py_range 1 13) []) ;;
        prcp_in <~ lift (monthly_dict mm_to_in df "prcp" (py_range 1 13) []) ;;
        ret (PyDict [("tavg_f", PyDict tavg_f); ("tmin_f", PyDict tmin_f);
                     ("tmax_f", PyDict tmax_f); ("prcp_in", PyDict prcp_in)])
  end.

(** [normals[field][m]] *)
Definition normals_at (normals : pyval) (field m : string) : result pyval :=
  f <- py_getitem normals field ;; py_getitem f m.

(** The [for m in MONTHS] loop that fills [out_row]. *)
Fixpoint fill_out_row (normals : pyval) (ms : list string)
         (out_row : list (string * pyval)) : result (list (string * pyval)) :=
  match ms with
  | [] => Ok out_row
  | m :: rest =>
      a <- normals_at normals "tavg_f" m ;;
      let out_row := dict_set out_row (m ++ "_tavg_f")%string a in
      b <- normals_at normals "tmin_f" m ;;
      let out_row := dict_set out_row (m ++ "_tmin_f")%string b in
      c <- normals_at normals "tmax_f" m ;;
      let out_row := dict_set out_row (m ++ "_tmax_f")%string c in
      p <- normals_at normals "prcp_in" m ;;
      let out_row := dict_set out_row (m ++ "_prcp_in")%string p in
      fill_out_row normals rest out_row
  end.

Definition skip_line (city country : string) : string :=
  ("Skipping " ++ city ++ ", " ++ country ++ " (no coordinates)")%string.

Definition no_normals_line (city country : string) : string :=
  ("No normals returned for " ++ city ++ ", " ++ country)%string.

Definition error_line (city country : string) (e : exn) : string :=
  ("Error for " ++ city ++ ", " ++ country ++ ": " ++ exn_msg e)%string.

(** The body of the [try] block for one city. *)
Definition try_city (city country : string) (lat lon : pyval) : M unit :=
  normals <~ fetch_normals_for_point lat lon ;;
  if negb (py_truthy normals)
  then print (no_normals_line city country)
  else
    out_row <~ lift (fill_out_row normals MONTHS
                       [("City", PyStr city); ("Country", PyStr country);
                        ("Lat", lat); ("Lon", lon)]) ;;
    records_append (PyDict out_row) ;;;
    tavg_f <~ lift (py_getitem normals "tavg_f") ;;
    tmin_f <~ lift (py_getitem normals "tmin_f") ;;
    tmax_f <~ lift (py_getitem normals "tmax_f") ;;
    prcp_in <~ lift (py_getitem normals "prcp_in") ;;
    json_payload_append
      (PyDict [("city", PyStr city); ("country", PyStr country);
               ("lat", lat); ("lon", lon);
               ("tavg_f", tavg_f); ("tmin_f", tmin_f);
               ("tmax_f", tmax_f); ("prcp_in", prcp_in)]).

(** One iteration of [for _, row in cities.iterrows()]. *)
Definition process_city (row : CityRow) : M unit :=
  let city := City row in
  let country := Country row in
  let lat := Lat row in
  let lon := Lon row in
  if pd_isna lat || pd_isna lon
  then print (skip_line city country)
  else try_except (try_city city country lat lon)
                  (fun e => print (error_line city country e)).

Definition geocoding_notice : string :=
  "Geocoding cities (this may take several minutes; one request per second)...".
Definition geocoding_done : string :=
  "Geocoding complete and saved back to cities_200.csv".
Definition no_data_line : string :=
  "No data collected. Please check your internet connection/API availability and try again.".
Definition nl : string := String (ascii_of_nat 10) "".
Definition done_line : string :=
  ("Done." ++ nl ++ "- CSV: " ++ OUT_CSV ++ nl ++ "- JSON: " ++ OUT_JSON
   ++ nl ++ "- Map: " ++ OUT_HTML)%string.
Definition tip_line : string :=
  "Tip: open comfort_map_dropdown.html in your browser.".

(** The first block of [main]: geocode unless both columns are there. *)
Definition resolve_locations (cities : CitiesTable) : M CitiesTable :=
  if negb (has_column "Lat" (columns cities))
     || negb (has_column "Lon" (columns cities))
  then
    print geocoding_notice ;;;
    cities' <~ geocode_cities cities ;;
    write_file DATA_CSV (CitiesCsv cities') ;;;
    print geocoding_done ;;;
    ret cities'
  else ret cities.

(** The per-city loop of [main]. *)
Definition collect (cities : CitiesTable) : M unit :=
  reset_accumulators ;;;
  for_each (rows cities) process_city.

(** The end of [main]: the three artifacts, unless nothing was collected. *)
Definition emit : M unit :=
  fun st =>
    match records st with
    | [] => print no_data_line st
    | _ :: _ =>
        (write_file OUT_CSV (RecordsCsv (records st)) ;;;
         write_file OUT_JSON (JsonText (json_payload st)) ;;;
         city_data <~ read_json OUT_JSON ;;
         write_file OUT_HTML
           (HtmlPage city_data MONTHS COMFORT_MIN_F COMFORT_MAX_F) ;;;
         print done_line ;;;
         print tip_line) st
    end.

(** *** What the claims say, for comparison with the code *)

Definition with_coords (row : CityRow) (lat lon : pyval) : CityRow :=
  {| City := City row; Country := Country row; Lat := lat; Lon := lon |}.

(** The resolver on one row, in the spec's words: query "City, Country",
    retry with "City" alone on no match, null coordinates on a second no
    match.  [log] holds the queries made so far; the result is the row with
    its coordinates and the extended log. *)
Definition spec_resolve_row (log : list string) (row : CityRow)
  : CityRow * list string :=
  let full := (City row ++ ", " ++ Country row)%string in
  match geocode_service log full with
  | Some l =>
      (with_coords row (PyFloat (latitude l)) (PyFloat (longitude l)),
       log ++ [full])
  | None =>
      match geocode_service (log ++ [full]) (City row) with
      | Some l =>
          (with_coords row (PyFloat (latitude l)) (PyFloat (longitude l)),
           (log ++ [full]) ++ [City row])
      | None =>
          (with_coords row PyNone PyNone, (log ++ [full]) ++ [City row])
      end
  end.

Fixpoint spec_resolve_rows (log : list string) (rs : list CityRow)
  : list CityRow * list string :=
  match rs with
  | [] => ([], log)
  | row :: rest =>
      let (row', log') := spec_resolve_row log row in
      let (rest', log'') := spec_resolve_rows log' rest in
      (row' :: rest', log'')
  end.

(** How the loop of [main] leaves a city. *)
Inductive Outcome : Type :=
| Skipped
| NoNormals
| Failed (e : exn)
| Collected.

(** The outcome for [row] when the loop reaches it in state [st]: skipped
    for want of coordinates, failed when the fetch raises, without normals
    when the fetch returns an empty result, collected otherwise. *)
Definition outcome (row : CityRow) (st : Env) : Outcome :=
  if pd_isna (Lat row) || pd_isna (Lon row) then Skipped
  else match fetch_normals_for_point (Lat row) (Lon row) st with
       | (_, Raise e) => Failed e
       | (_, Ok normals) => if py_truthy normals then Collected else NoNormals
       end.

Definition is_collected (o : Outcome) : bool :=
  match o with Collected => true | _ => false end.

(** The number of cities collected when the loop runs over [rs] from [st]. *)
Fixpoint collected_count (rs : list CityRow) (st : Env) : nat :=
  match rs with
  | [] => O
  | row :: rest =>
      ((if is_collected (outcome row st) then 1 else 0)
       + collected_count rest (fst (process_city row st)))%nat
  end.

(** [main], given the table [pd.read_csv(DATA_CSV)] returned. *)
Definition main (cities : CitiesTable) : M unit :=
  cities <~ resolve_locations cities ;;
  collect cities ;;;
  emit.

End Program.

(** ** The page script *)

Module Page.

(** What a property read or an input yields in the script. *)
Inductive jsval : Type :=
| JsUndefined
| JsNull
| JsNum (x : float).

(** A month mapping of the embedded JSON: month label to number or null. *)
Definition month_map : Type := list (string * option float).

(** An element of [cityData]. *)
Record CityRecord : Type := {
  city : string;
  country : string;
  lat : float;
  lon : float;
  tavg_f : month_map;
  tmin_f : month_map;
  tmax_f : month_map;
  prcp_in : month_map
}.

(** [o[m]]: [undefined] when the object has no such property. *)
Fixpoint prop (o : month_map) (m : string) : jsval :=
  match o with
  | [] => JsUndefined
  | (k, v) :: rest =>
      if String.eqb k m
      then match v with Some x => JsNum x | None => JsNull end
      else prop rest m
  end.

(** [v == null] *)
Definition eq_null (v : jsval) : bool :=
  match v with
  | JsUndefined | JsNull => true
  | JsNum _ => false
  end.

(** [ToNumber] *)
Definition to_number (v : jsval) : float :=
  match v with
  | JsUndefined => nan
  | JsNull => 0%float
  | JsNum x => x
  end.

(** [a >= b] and [a <= b] with a number on the right. *)
Definition js_ge (a : jsval) (b : float) : bool := (b <=? to_number a)%float.
Definition js_le (a : jsval) (b : float) : bool := (to_number a <=? b)%float.

(** The values read from the toolbar: the selected month and the three
    [parseFloat] results (NaN for an empty or malformed input). *)
Record Controls : Type := {
  month : string;
  minTemp : float;
  maxTemp : float;
  maxPrcp : float
}.

(** A marker on the map, with the content of its popup; [popup_precip] is
    [None] where the popup prints "n/a". *)
Record Marker : Type := {
  marker_lat : float;
  marker_lon : float;
  popup_city : string;
  popup_country : string;
  popup_month : string;
  popup_avg : jsval;
  popup_min : jsval;
  popup_max : jsval;
  popup_precip : option float
}.

Definition marker_of (m : string) (c : CityRecord) : Marker :=
  {| marker_lat := lat c;
     marker_lon := lon c;
     popup_city := city c;
     popup_country := country c;
     popup_month := m;
     popup_avg := prop (tavg_f c) m;
     popup_min := prop (tmin_f c) m;
     popup_max := prop (tmax_f c) m;
     popup_precip := match prop (prcp_in c) m with
                     | JsNum p => Some p
                     | _ => None
                     end |}.

(** The callback of [cityData.forEach], on the list [markers]. *)
Definition visit (ctl : Controls) (markers : list Marker) (c : CityRecord)
  : list Marker :=
  let m := month ctl in
  let t := prop (tavg_f c) m in
  let p := prop (prcp_in c) m in
  if eq_null t then markers
  else
    let tempOk := js_ge t (minTemp ctl) && js_le t (maxTemp ctl) in
    let prcpOk := if eq_null p then true else js_le p (maxPrcp ctl) in
    if tempOk && prcpOk then markers ++ [marker_of m c] else markers.

(** [update()]: the markers on the map afterwards.  The markers of the
    previous call are all removed from the map and the list restarts empty. *)
Definition update (cityData : list CityRecord) (ctl : Controls)
           (markers : list Marker) : list Marker :=
  fold_left (visit ctl) cityData [].

(** Whether [update] puts a marker for [c]. *)
Definition shown (ctl : Controls) (c : CityRecord) : bool :=
  negb (List.length (visit ctl [] c) =? 0)%nat.

End Page.

(** ** Sample data *)

Module Sample.

Definition lisbon : Location := {| latitude := 38.75; longitude := -9.125 |}.
Definition porto : Location := {| latitude := 41.125; longitude := -8.5 |}.

(** A geocoder that knows "Lisbon, Portugal" and "Porto" only. *)
Definition geocoder (log : list string) (query : string) : option Location :=
  if String.eqb query "Lisbon, Portugal" then Some lisbon
  else if String.eqb query "Porto" then Some porto
  else None.

(** A geocoder that finds every place. *)
Definition any_geocoder (log : list string) (query : string)
  : option Location := Some lisbon.

Definition lisbon_row : CityRow :=
  {| City := "Lisbon"; Country := "Portugal"; Lat := PyNone; Lon := PyNone |}.
Definition porto_row : CityRow :=
  {| City := "Porto"; Country := "Lusitania"; Lat := PyNone; Lon := PyNone |}.
Definition springfield_row : CityRow :=
  {| City := "Springfield"; Country := "Nowhereland";
     Lat := PyNone; Lon := PyNone |}.

(** A table as first read: no coordinate columns. *)
Definition fresh_table : CitiesTable :=
  {| columns := ["City"; "Country"];
     rows := [lisbon_row; porto_row; springfield_row] |}.

(** A table read back after a run that left Springfield unresolved. *)
Definition reread_table : CitiesTable :=
  {| columns := ["City"; "Country"; "Lat"; "Lon"];
     rows := [with_coords lisbon_row (PyFloat 38.75) (PyFloat (-9.125));
              with_coords springfield_row (PyFloat nan) (PyFloat nan)] |}.

(** Twelve monthly rows: 20 degrees on average, between 15 and 25, 127 mm. *)
Definition monthly_cell (i : Z) (col : string) : float :=
  if String.eqb col "prcp" then 127
  else if String.eqb col "tmin" then 15
  else if String.eqb col "tmax" then 25
  else 20.

Definition frame12 : Frame :=
  {| frame_index := [1; 2; 3; 4; 5; 6; 7; 8; 9; 10; 11; 12];
     frame_columns := ["tavg"; "tmin"; "tmax"; "prcp"];
     frame_at := monthly_cell |}.

(** December is missing. *)
Definition frame11 : Frame :=
  {| frame_index := [1; 2; 3; 4; 5; 6; 7; 8; 9; 10; 11];
     frame_columns := ["tavg"; "tmin"; "tmax"; "prcp"];
     frame_at := monthly_cell |}.

(** No precipitation column. *)
Definition frame_no_prcp : Frame :=
  {| frame_index := [1; 2; 3; 4; 5; 6; 7; 8; 9; 10; 11; 12];
     frame_columns := ["tavg"; "tmin"; "tmax"];
     frame_at := monthly_cell |}.

(** A climate source: full normals at Lisbon's latitude, eleven months at
    Porto's, a network failure on the equator, nothing elsewhere. *)
Definition normals_service (log : list (pyval * pyval)) (lat lon : pyval)
  : result (option Frame) :=
  match lat with
  | PyFloat x =>
      if (x =? 38.75)%float then Ok (Some frame12)
      else if (x =? 41.125)%float then Ok (Some frame11)
      else if (x =? 0)%float then Raise (Exn "ConnectionError" "timed out")
      else Ok None
  | _ => Raise (TypeError "must be real number")
  end.

(** A climate source without precipitation data. *)
Definition dry_service (log : list (pyval * pyval)) (lat lon : pyval)
  : result (option Frame) := Ok (Some frame_no_prcp).

Definition quito_row : CityRow :=
  {| City := "Quito"; Country := "Ecuador";
     Lat := PyFloat 0; Lon := PyFloat (-78.5) |}.

(** A resolved table: Lisbon has normals, Porto eleven months only, the
    fetch for Quito fails, Springfield has no coordinates. *)
Definition resolved_table : CitiesTable :=
  {| columns := ["City"; "Country"; "Lat"; "Lon"];
     rows := [with_coords lisbon_row (PyFloat 38.75) (PyFloat (-9.125));
              with_coords porto_row (PyFloat 41.125) (PyFloat (-8.5));
              quito_row;
              with_coords springfield_row (PyFloat nan) (PyFloat nan)] |}.

(** A table none of whose cities can be collected. *)
Definition hopeless_table : CitiesTable :=
  {| columns := ["City"; "Country"; "Lat"; "Lon"];
     rows := [with_coords porto_row (PyFloat 41.125) (PyFloat (-8.5));
              quito_row;
              with_coords springfield_row (PyFloat nan) (PyFloat nan)] |}.

(** The resolved table without Springfield. *)
Definition resolved_table_known : CitiesTable :=
  {| columns := ["City"; "Country"; "Lat"; "Lon"];
     rows := [with_coords lisbon_row (PyFloat 38.75) (PyFloat (-9.125));
              with_coords porto_row (PyFloat 41.125) (PyFloat (-8.5));
              quito_row] |}.

(** City records of the page: 68 degrees and 2 inches every month; the same
    with unknown precipitation; unknown temperature. *)
Definition every_month (v : option float) : Page.month_map :=
  map (fun m => (m, v)) MONTHS.

Definition mild_city : Page.CityRecord :=
  {| Page.city := "Lisbon"; Page.country := "Portugal";
     Page.lat := 38.75; Page.lon := -9.125;
     Page.tavg_f := every_month (Some 68%float);
     Page.tmin_f := every_month (Some 59%float);
     Page.tmax_f := every_month (Some 77%float);
     Page.prcp_in := every_month (Some 2%float) |}.

Definition unknown_rain_city : Page.CityRecord :=
  {| Page.city := "Porto"; Page.country := "Portugal";
     Page.lat := 41.125; Page.lon := -8.5;
     Page.tavg_f := every_month (Some 68%float);
     Page.tmin_f := every_month (Some 59%float);
     Page.tmax_f := every_month (Some 77%float);
     Page.prcp_in := every_month None |}.

Definition unknown_temp_city : Page.CityRecord :=
  {| Page.city := "Quito"; Page.country := "Ecuador";
     Page.lat := 0; Page.lon := -78.5;
     Page.tavg_f := every_month None;
     Page.tmin_f := every_month None;
     Page.tmax_f := every_month None;
     Page.prcp_in := every_month (Some 2%float) |}.

(** The default filter (50 to 75 degrees, at most 5 inches), a narrower one
    (at most 65 degrees), and one that allows no precipitation at all. *)
Definition comfort : Page.Controls :=
  {| Page.month := "Jan"; Page.minTemp := 50; Page.maxTemp := 75;
     Page.maxPrcp := 5 |}.
Definition cooler : Page.Controls :=
  {| Page.month := "Jan"; Page.minTemp := 50; Page.maxTemp := 65;
     Page.maxPrcp := 5 |}.
Definition dry : Page.Controls :=
  {| Page.month := "Jan"; Page.minTemp := 50; Page.maxTemp := 75;
     Page.maxPrcp := 0 |}.

Definition months_of (v : pyval) : list (string * pyval) :=
  map (fun m => (m, v)) MONTHS.

End Sample.

(** ** More sample data *)

Module MoreSamples.

(** Twelve monthly rows labelled from 0, so that the label 12 is missing. *)
Definition frame_from_zero : Frame :=
  {| frame_index := [0; 1; 2; 3; 4; 5; 6; 7; 8; 9; 10; 11];
     frame_columns := ["tavg"; "tmin"; "tmax"; "prcp"];
     frame_at := Sample.monthly_cell |}.

Definition zero_based_service (log : list (pyval * pyval)) (lat lon : pyval)
  : result (option Frame) := Ok (Some frame_from_zero).

(** Filters whose minimum temperature or precipitation cap was left empty. *)
Definition no_minimum : Page.Controls :=
  {| Page.month := "Jan"; Page.minTemp := nan; Page.maxTemp := 75;
     Page.maxPrcp := 5 |}.
Definition no_cap : Page.Controls :=
  {| Page.month := "Jan"; Page.minTemp := 50; Page.maxTemp := 75;
     Page.maxPrcp := nan |}.

End MoreSamples.

(** ** Further notions used to state properties of the run *)

(** [not (pd.isna(lat) or pd.isna(lon))] for a row. *)
Definition has_coords (row : CityRow) : bool :=
  negb (pd_isna (Lat row) || pd_isna (Lon row)).

(** The rows the loop collects when it runs over [rs] from [st], in order. *)
Fixpoint collected_rows
         (normals_service :
            list (pyval * pyval) -> pyval -> pyval -> result (option Frame))
         (rs : list CityRow) (st : Env) : list CityRow :=
  match rs with
  | [] => []
  | row :: rest =>
      (if is_collected (outcome normals_service row st) then [row] else [])
      ++ collected_rows normals_service rest
           (fst (process_city normals_service row st))
  end.

(** The columns of a record, in the order the loop of [main] creates them. *)
Definition month_columns (m : string) : list string :=
  [(m ++ "_tavg_f")%string; (m ++ "_tmin_f")%string;
   (m ++ "_tmax_f")%string; (m ++ "_prcp_in")%string].

Definition record_columns : list string :=
  ["City"; "Country"; "Lat"; "Lon"] ++ flat_map month_columns MONTHS.

(** The record [r] carries the city, country and coordinates of [row]. *)
Definition record_names_city (row : CityRow) (r : pyval) : Prop :=
  py_getitem r "City" = Ok (PyStr (City row))
  /\ py_getitem r "Country" = Ok (PyStr (Country row))
  /\ py_getitem r "Lat" = Ok (Lat row)
  /\ py_getitem r "Lon" = Ok (Lon row).

(** The JSON object [o] carries the city, country and coordinates of [row]. *)
Definition object_names_city (row : CityRow) (o : pyval) : Prop :=
  py_getitem o "city" = Ok (PyStr (City row))
  /\ py_getitem o "country" = Ok (PyStr (Country row))
  /\ py_getitem o "lat" = Ok (Lat row)
  /\ py_getitem o "lon" = Ok (Lon row).

(** The record [r] and the JSON object [o] hold the same value for every
    month and field: [r[m_field] = o[field][m]]. *)
Definition record_matches_object (r o : pyval) : Prop :=
  forall m, In m MONTHS ->
    exists a b c p,
      (py_getitem r (m ++ "_tavg_f")%string = Ok a
       /\ (f <- py_getitem o "tavg_f" ;; py_getitem f m) = Ok a)
      /\ (py_getitem r (m ++ "_tmin_f")%string = Ok b
          /\ (f <- py_getitem o "tmin_f" ;; py_getitem f m) = Ok b)
      /\ (py_getitem r (m ++ "_tmax_f")%string = Ok c
          /\ (f <- py_getitem o "tmax_f" ;; py_getitem f m) = Ok c)
      /\ (py_getitem r (m ++ "_prcp_in")%string = Ok p
          /\ (f <- py_getitem o "prcp_in" ;; py_getitem f m) = Ok p).

(** The record [r] is a dict with the columns of [record_columns], in that
    order. *)
Definition has_record_columns (r : pyval) : Prop :=
  exists d, r = PyDict d /\ dict_keys d = record_columns.

(** No string occurs twice in [l]. *)
Fixpoint distinct (l : list string) : bool :=
  match l with
  | [] => true
  | x :: rest => negb (existsb (String.eqb x) rest) && distinct rest
  end.

(** One step through a month comprehension that returned. *)
Ltac monthly_step H :=
  first
    [ progress cbn [bind] in H
    | match type of H with
      | context [list_getitem MONTHS ?i] =>
          let r := eval vm_compute in (list_getitem MONTHS i) in
          change (list_getitem MONTHS i) with r in H
      end
    | match type of H with
      | bind ?r _ = Ok _ => destruct r eqn:?; [| discriminate H]
      end ].

(** * Properties *)

(** ** The runtime's rounding never overflows for [ndigits >= 0] *)

Lemma digits2_pos_bound (m : positive) : Zpos m < 2 ^ Zpos (digits2_pos m).
Proof.
  induction m as [m IH | m IH | ]; simpl digits2_pos.
  - rewrite Pos2Z.inj_succ, Z.pow_succ_r by lia. lia.
  - rewrite Pos2Z.inj_succ, Z.pow_succ_r by lia. lia.
  - reflexivity.
Qed.

(** The mantissa and exponent of a finite double are bounded. *)
Lemma Prim2SF_finite_bounds (x : float) (s : bool) (m : positive) (e : Z) :
  Prim2SF x = S754_finite s m e -> Zpos m < 2 ^ 53 /\ e <= 971.
Proof.
  intros Hx. pose proof (Prim2SF_valid x) as Hv. rewrite Hx in Hv.
  unfold valid_binary, bounded, canonical_mantissa, fexp in Hv.
  apply andb_true_iff in Hv. destruct Hv as [Hc He].
  apply Z.eqb_eq in Hc. apply Z.leb_le in He.
  change (emax - prec) with 971 in He. change prec with 53 in Hc.
  split; [| exact He].
  assert (Hd : Zpos (digits2_pos m) <= 53) by lia.
  pose proof (digits2_pos_bound m) as Hb.
  eapply Z.lt_le_trans; [exact Hb |].
  apply Z.pow_le_mono_r; lia.
Qed.

Lemma round_half_even_le (a b : Z) :
  0 <= a -> 0 < b -> round_half_even a b <= a / b + 1.
Proof.
  intros Ha Hb. unfold round_half_even.
  destruct (2 * (a mod b) ?= b); [destruct (Z.even (a / b)) | |]; lia.
Qed.

Lemma round_half_even_one (a : Z) : round_half_even a 1 = a.
Proof.
  unfold round_half_even. rewrite Z.mod_1_r, Z.div_1_r. reflexivity.
Qed.

Lemma scaled_digits_bound (m : positive) (e nd : Z) :
  Zpos m < 2 ^ 53 -> e <= 971 -> 0 <= nd ->
  scaled_digits m e nd < DBL_OVERFLOW * 10 ^ nd.
Proof.
  intros Hm He Hnd. unfold scaled_digits.
  assert (Hp : 0 < 10 ^ nd) by (apply Z.pow_pos_nonneg; lia).
  replace (0 <=? nd) with true by (symmetry; apply Z.leb_le; lia).
  assert (Hbig : 2 ^ 53 * 2 ^ 971 < DBL_OVERFLOW + 2 ^ 971) by (vm_compute; reflexivity).
  assert (H971 : 0 < 2 ^ 971) by (apply Z.pow_pos_nonneg; lia).
  destruct (0 <=? e) eqn:Hsign.
  - apply Z.leb_le in Hsign. rewrite round_half_even_one.
    assert (H2e : 0 < 2 ^ e <= 2 ^ 971).
    { split; [apply Z.pow_pos_nonneg; lia | apply Z.pow_le_mono_r; lia]. }
    apply Z.mul_lt_mono_pos_r; [exact Hp |].
    assert (Zpos m * 2 ^ e <= (2 ^ 53 - 1) * 2 ^ 971) by (apply Z.mul_le_mono_nonneg; lia).
    lia.
  - apply Z.leb_gt in Hsign.
    assert (H2 : 2 <= 2 ^ (- e)).
    { change 2 with (2 ^ 1) at 1. apply Z.pow_le_mono_r; lia. }
    pose proof (round_half_even_le (Zpos m * 10 ^ nd) (2 ^ (- e))) as Hr.
    assert (Ha : 0 <= Zpos m * 10 ^ nd) by lia.
    specialize (Hr Ha ltac:(lia)).
    assert (Hq : Zpos m * 10 ^ nd / 2 ^ (- e) <= Zpos m * 10 ^ nd / 2).
    { apply Z.div_le_compat_l; lia. }
    assert (Hhalf : Zpos m * 10 ^ nd / 2 + 1 <= Zpos m * 10 ^ nd).
    { assert (1 <= Zpos m * 10 ^ nd) by nia.
      pose proof (Z.div_mod (Zpos m * 10 ^ nd) 2 ltac:(lia)).
      pose proof (Z.mod_pos_bound (Zpos m * 10 ^ nd) 2 ltac:(lia)). lia. }
    assert (Hlt : Zpos m * 10 ^ nd < 2 ^ 53 * 10 ^ nd)
      by (apply Z.mul_lt_mono_pos_r; lia).
    assert (Hdbl : 2 ^ 53 <= DBL_OVERFLOW) by (vm_compute; discriminate).
    assert (2 ^ 53 * 10 ^ nd <= DBL_OVERFLOW * 10 ^ nd)
      by (apply Z.mul_le_mono_nonneg_r; lia).
    lia.
Qed.

(** [round(x, ndigits)] returns for every double when [0 <= ndigits]. *)
Lemma float_round_total (x : float) (nd : Z) :
  0 <= nd <= NDIGITS_MAX -> float_round x nd = Ok (double_round x nd).
Proof.
  intros [Hlo Hhi]. unfold float_round, double_round.
  destruct (Prim2SF x) as [s | s | | s m e] eqn:Hx; try reflexivity.
  destruct (Prim2SF_finite_bounds x s m e Hx) as [Hm He].
  replace (NDIGITS_MAX <? nd) with false by (symmetry; apply Z.ltb_ge; lia).
  replace (nd <? NDIGITS_MIN) with false
    by (symmetry; apply Z.ltb_ge; unfold NDIGITS_MIN; lia).
  pose proof (scaled_digits_bound m e nd Hm He Hlo) as Hb.
  unfold decimal_num, decimal_den.
  replace (0 <=? nd) with true by (symmetry; apply Z.leb_le; lia).
  replace (DBL_OVERFLOW * 10 ^ nd <=? scaled_digits m e nd) with false
    by (symmetry; apply Z.leb_gt; lia).
  reflexivity.
Qed.

(** ** Unit conversions *)

Lemma int_to_float_9 : int_to_float 9 = Ok 9%float.
Proof. vm_compute. reflexivity. Qed.

Lemma int_to_float_5 : int_to_float 5 = Ok 5%float.
Proof. vm_compute. reflexivity. Qed.

Lemma int_to_float_32 : int_to_float 32 = Ok 32%float.
Proof. vm_compute. reflexivity. Qed.

Lemma float_div_5 (y : float) : float_div y 5 = Ok (y / 5)%float.
Proof.
  unfold float_div. replace (5 =? 0)%float with false by (vm_compute; reflexivity).
  reflexivity.
Qed.

Lemma float_div_25_4 (y : float) :
  float_div y 0x1.9666666666666p+4 = Ok (y / 0x1.9666666666666p+4)%float.
Proof.
  unfold float_div.
  replace (0x1.9666666666666p+4 =? 0)%float with false by (vm_compute; reflexivity).
  reflexivity.
Qed.

Lemma py_round_float (x : float) (nd : Z) :
  0 <= nd <= NDIGITS_MAX ->
  py_round (PyFloat x) nd = Ok (PyFloat (double_round x nd)).
Proof.
  intros H. unfold py_round. rewrite (float_round_total x nd H). reflexivity.
Qed.

Lemma c_to_f_float (x : float) :
  PrimFloat.is_nan x = false ->
  c_to_f (PyFloat x) = Ok (PyFloat (double_round (x * 9 / 5 + 32) 1)).
Proof.
  intros Hx. unfold c_to_f. simpl is_none_or_nan. rewrite Hx.
  unfold py_mul. rewrite int_to_float_9. cbn [bind].
  unfold py_truediv. rewrite int_to_float_5. cbn [bind].
  rewrite float_div_5. cbn [bind].
  unfold py_add. rewrite int_to_float_32. cbn [bind].
  apply py_round_float. unfold NDIGITS_MAX. lia.
Qed.

Lemma mm_to_in_float (x : float) :
  PrimFloat.is_nan x = false ->
  mm_to_in (PyFloat x)
  = Ok (PyFloat (double_round (x / 0x1.9666666666666p+4) 2)).
Proof.
  intros Hx. unfold mm_to_in. simpl is_none_or_nan. rewrite Hx.
  unfold py_truediv. rewrite float_div_25_4. cbn [bind].
  apply py_round_float. unfold NDIGITS_MAX. lia.
Qed.

Lemma c_to_f_int (z : Z) :
  Z.abs (z * 9) < DBL_OVERFLOW * 5 ->
  exists q, int_true_divide (z * 9) 5 = Ok q
            /\ c_to_f (PyInt z) = Ok (PyFloat (double_round (q + 32) 1)).
Proof.
  intros Hz. unfold c_to_f. simpl is_none_or_nan.
  unfold py_mul. cbn [bind]. unfold py_truediv.
  unfold int_true_divide.
  replace (5 =? 0) with false by reflexivity.
  replace (DBL_OVERFLOW * Z.abs 5 <=? Z.abs (z * 9)) with false
    by (symmetry; apply Z.leb_gt; change (Z.abs 5) with 5; lia).
  eexists. split; [reflexivity |].
  cbn [bind].
  unfold py_add. rewrite int_to_float_32. cbn [bind].
  apply py_round_float. unfold NDIGITS_MAX. lia.
Qed.

Lemma mm_to_in_int (z : Z) :
  Z.abs z < DBL_OVERFLOW ->
  exists x, int_to_float z = Ok x
            /\ mm_to_in (PyInt z)
               = Ok (PyFloat (double_round (x / 0x1.9666666666666p+4) 2)).
Proof.
  intros Hz. unfold mm_to_in. simpl is_none_or_nan.
  unfold py_truediv, int_to_float.
  replace (DBL_OVERFLOW <=? Z.abs z) with false by (symmetry; apply Z.leb_gt; lia).
  eexists. split; [reflexivity |].
  cbn [bind]. rewrite float_div_25_4. cbn [bind].
  apply py_round_float. unfold NDIGITS_MAX. lia.
Qed.

Lemma c_to_f_int_overflow (z : Z) :
  DBL_OVERFLOW * 5 <= Z.abs (z * 9) ->
  c_to_f (PyInt z)
  = Raise (OverflowError "integer division result too large for a float").
Proof.
  intros Hz. unfold c_to_f. simpl is_none_or_nan.
  unfold py_mul. cbn [bind]. unfold py_truediv, int_true_divide.
  replace (5 =? 0) with false by reflexivity.
  replace (DBL_OVERFLOW * Z.abs 5 <=? Z.abs (z * 9)) with true
    by (symmetry; apply Z.leb_le; change (Z.abs 5) with 5; lia).
  reflexivity.
Qed.

Lemma mm_to_in_int_overflow (z : Z) :
  DBL_OVERFLOW <= Z.abs z ->
  mm_to_in (PyInt z)
  = Raise (OverflowError "int too large to convert to float").
Proof.
  intros Hz. unfold mm_to_in. simpl is_none_or_nan.
  unfold py_truediv, int_to_float.
  replace (DBL_OVERFLOW <=? Z.abs z) with true by (symmetry; apply Z.leb_le; lia).
  reflexivity.
Qed.

(** C1 (as amended): the conversions preserve nulls and return on every
    float and on every int within the range of a double.  [None] and a float
    NaN give [None]; any other float [x] gives [round(x * 9/5 + 32, 1)],
    resp. [round(x / 25.4, 2)], without raising; an int [z] gives the same
    rounded value, without raising, when [|9 z| < 5 * DBL_OVERFLOW] for
    [c_to_f] and [|z| < DBL_OVERFLOW] for [mm_to_in], and raises
    [OverflowError] beyond; and [c_to_f(0) = 32.0], [c_to_f(100) = 212.0],
    [mm_to_in(25.4) = 1.0], [mm_to_in(0) = 0.0]. *)
Theorem conversions_null_preserving :
  (forall c, is_none_or_nan c = true ->
             c_to_f c = Ok PyNone /\ mm_to_in c = Ok PyNone)
  /\ (forall x, PrimFloat.is_nan x = false ->
        c_to_f (PyFloat x) = Ok (PyFloat (double_round (x * 9 / 5 + 32) 1))
        /\ mm_to_in (PyFloat x)
           = Ok (PyFloat (double_round (x / 0x1.9666666666666p+4) 2)))
  /\ (forall z, Z.abs (z * 9) < DBL_OVERFLOW * 5 ->
        exists q, int_true_divide (z * 9) 5 = Ok q
                  /\ c_to_f (PyInt z) = Ok (PyFloat (double_round (q + 32) 1)))
  /\ (forall z, Z.abs z < DBL_OVERFLOW ->
        exists x, int_to_float z = Ok x
                  /\ mm_to_in (PyInt z)
                     = Ok (PyFloat (double_round (x / 0x1.9666666666666p+4) 2)))
  /\ (forall z, DBL_OVERFLOW * 5 <= Z.abs (z * 9) ->
        c_to_f (PyInt z)
        = Raise (OverflowError "integer division result too large for a float"))
  /\ (forall z, DBL_OVERFLOW <= Z.abs z ->
        mm_to_in (PyInt z)
        = Raise (OverflowError "int too large to convert to float"))
  /\ c_to_f (PyInt 0) = Ok (PyFloat 32)
  /\ c_to_f (PyInt 100) = Ok (PyFloat 212)
  /\ mm_to_in (PyFloat 0x1.9666666666666p+4) = Ok (PyFloat 1)
  /\ mm_to_in (PyInt 0) = Ok (PyFloat 0).
Proof.
  split; [| split; [| split; [| split; [| split; [| split]]]]].
  - intros c Hc. unfold c_to_f, mm_to_in. rewrite Hc. split; reflexivity.
  - intros x Hx. split; [apply c_to_f_float | apply mm_to_in_float]; exact Hx.
  - exact c_to_f_int.
  - exact mm_to_in_int.
  - exact c_to_f_int_overflow.
  - exact mm_to_in_int_overflow.
  - repeat split; vm_compute; reflexivity.
Qed.

(** The amended statement at [None], NaN, 20.0 degrees and 37 degrees,
    50.8 mm and 254 mm. *)
Lemma conversions_null_preserving_witness :
  (c_to_f PyNone = Ok PyNone /\ mm_to_in (PyFloat nan) = Ok PyNone)
  /\ c_to_f (PyFloat 20) = Ok (PyFloat (double_round (20 * 9 / 5 + 32) 1))
  /\ (exists q, int_true_divide (37 * 9) 5 = Ok q
                /\ c_to_f (PyInt 37) = Ok (PyFloat (double_round (q + 32) 1)))
  /\ (exists x, int_to_float 254 = Ok x
                /\ mm_to_in (PyInt 254)
                   = Ok (PyFloat (double_round (x / 0x1.9666666666666p+4) 2))).
Proof.
  destruct conversions_null_preserving as (Hnull & Hfloat & Hint & Hmm & _).
  split; [| split; [| split]].
  - split; [apply (Hnull PyNone) | apply (Hnull (PyFloat nan))]; reflexivity.
  - apply (Hfloat 20%float). reflexivity.
  - apply (Hint 37). vm_compute. reflexivity.
  - apply (Hmm 254). vm_compute. reflexivity.
Defined.

(** C1 as stated fails: on the int [10^400] both conversions raise
    [OverflowError]. *)
Lemma conversions_raise_on_huge_int :
  c_to_f (PyInt (10 ^ 400))
  = Raise (OverflowError "integer division result too large for a float")
  /\ mm_to_in (PyInt (10 ^ 400))
     = Raise (OverflowError "int too large to convert to float").
Proof. split; vm_compute; reflexivity. Qed.

(** ** The filter of the page script *)

Module PageFacts.
Import Page.

Lemma visit_app (ctl : Controls) (markers : list Marker) (c : CityRecord) :
  visit ctl markers c = markers ++ visit ctl [] c.
Proof.
  unfold visit.
  destruct (eq_null (prop (tavg_f c) (month ctl))).
  - now rewrite app_nil_r.
  - destruct (_ && _); [reflexivity | now rewrite app_nil_r].
Qed.

Lemma visit_shown (ctl : Controls) (c : CityRecord) :
  visit ctl [] c = if shown ctl c then [marker_of (month ctl) c] else [].
Proof.
  unfold shown, visit.
  destruct (eq_null (prop (tavg_f c) (month ctl))); [reflexivity |].
  destruct (_ && _); reflexivity.
Qed.

Lemma fold_visit (ctl : Controls) (cs : list CityRecord) (acc : list Marker) :
  fold_left (visit ctl) cs acc
  = acc ++ map (marker_of (month ctl)) (filter (shown ctl) cs).
Proof.
  revert acc. induction cs as [| c cs IH]; intros acc; simpl.
  - now rewrite app_nil_r.
  - rewrite IH, visit_app, visit_shown, <- app_assoc.
    destruct (shown ctl c); reflexivity.
Qed.

Lemma update_filter (cityData : list CityRecord) (ctl : Controls)
      (old : list Marker) :
  update cityData ctl old
  = map (marker_of (month ctl)) (filter (shown ctl) cityData).
Proof. unfold update. now rewrite fold_visit. Qed.

Lemma shown_spec (ctl : Controls) (c : CityRecord) :
  shown ctl c = true <->
  (exists t, prop (tavg_f c) (month ctl) = JsNum t
             /\ (minTemp ctl <=? t)%float = true
             /\ (t <=? maxTemp ctl)%float = true)
  /\ (eq_null (prop (prcp_in c) (month ctl)) = true
      \/ exists p, prop (prcp_in c) (month ctl) = JsNum p
                   /\ (p <=? maxPrcp ctl)%float = true).
Proof.
  unfold shown, visit, js_ge, js_le.
  destruct (prop (tavg_f c) (month ctl)) as [| | t]; simpl eq_null.
  - split; [discriminate | intros [[t [Ht _]] _]; discriminate].
  - split; [discriminate | intros [[t [Ht _]] _]; discriminate].
  - simpl to_number.
    destruct (minTemp ctl <=? t)%float eqn:Hlo;
      destruct (t <=? maxTemp ctl)%float eqn:Hhi; simpl andb;
      try (split; [discriminate
                  | intros [[t' [Ht' [H1 H2]]] _]; inversion Ht'; subst t';
                    congruence]).
    destruct (prop (prcp_in c) (month ctl)) as [| | p]; simpl eq_null.
    + split; [intros _ | reflexivity].
      split; [exists t; auto | left; reflexivity].
    + split; [intros _ | reflexivity].
      split; [exists t; auto | left; reflexivity].
    + simpl to_number.
      destruct (p <=? maxPrcp ctl)%float eqn:Hp; simpl.
      * split; [intros _ | reflexivity].
        split; [exists t; auto | right; exists p; auto].
      * split; [discriminate |].
        intros [_ [Hnull | [p' [Hp' Hle]]]]; [discriminate |].
        inversion Hp'; subst p'. congruence.
Qed.

(** C2: [update] leaves exactly one marker per city record that passes the
    filter, in the order of [cityData]; a city passes if and only if its
    average temperature for the selected month is a number [t] with
    [tmin <= t <= tmax] and its precipitation for that month is null or a
    number [p] with [p <= maxP]; a null precipitation never excludes a city. *)
Theorem update_shows_cities_within_filters
        (cityData : list CityRecord) (ctl : Controls) (old : list Marker) :
  update cityData ctl old
  = map (marker_of (month ctl)) (filter (shown ctl) cityData)
  /\ (forall c,
        shown ctl c = true <->
        (exists t, prop (tavg_f c) (month ctl) = JsNum t
                   /\ (minTemp ctl <=? t)%float = true
                   /\ (t <=? maxTemp ctl)%float = true)
        /\ (eq_null (prop (prcp_in c) (month ctl)) = true
            \/ exists p, prop (prcp_in c) (month ctl) = JsNum p
                         /\ (p <=? maxPrcp ctl)%float = true))
  /\ (forall c t,
        prop (tavg_f c) (month ctl) = JsNum t ->
        eq_null (prop (prcp_in c) (month ctl)) = true ->
        shown ctl c = ((minTemp ctl <=? t) && (t <=? maxTemp ctl))%float).
Proof.
  split; [apply update_filter | split; [intros c; apply shown_spec |]].
  intros c t Ht Hp. unfold shown, visit, js_ge, js_le.
  rewrite Ht, Hp. simpl eq_null. simpl to_number.
  destruct ((minTemp ctl <=? t)%float && (t <=? maxTemp ctl)%float); reflexivity.
Qed.

(** C10: a city whose average temperature for the selected month is null
    (or absent) gets no marker, whatever the three filter values are, and
    the markers are those of the data without that city. *)
Theorem null_temperature_never_shown
        (ctl : Controls) (c : CityRecord)
        (Hnull : eq_null (prop (tavg_f c) (month ctl)) = true) :
  shown ctl c = false
  /\ (forall markers, visit ctl markers c = markers)
  /\ (forall before after old,
        update (before ++ c :: after) ctl old
        = update (before ++ after) ctl old).
Proof.
  assert (Hv : forall markers, visit ctl markers c = markers).
  { intros markers. unfold visit. now rewrite Hnull. }
  assert (Hs : shown ctl c = false).
  { unfold shown. now rewrite Hv. }
  split; [exact Hs | split; [exact Hv |]].
  intros before after old. rewrite !update_filter, !filter_app. simpl filter.
  now rewrite Hs.
Qed.

End PageFacts.

(** ** The location resolver *)

Section ResolverFacts.

Variable geocode_service : list string -> string -> option Location.


Lemma set_geocoded_same (st : Env) : set_geocoded st (geocoded st) = st.
Proof. destruct st; reflexivity. Qed.

Lemma geocode_rows_spec (rs : list CityRow) :
  forall lats lons st,
    geocode_rows geocode_service rs lats lons st
    = (set_geocoded st (snd (spec_resolve_rows geocode_service (geocoded st) rs)),
       Ok (lats ++ map Lat (fst (spec_resolve_rows geocode_service (geocoded st) rs)),
           lons ++ map Lon (fst (spec_resolve_rows geocode_service (geocoded st) rs)))).
Proof.
  induction rs as [| row rest IH]; intros lats lons st.
  - simpl. unfold ret. now rewrite set_geocoded_same, !app_nil_r.
  - cbn [geocode_rows spec_resolve_rows].
    unfold spec_resolve_row, bindM, geocode, ret. cbn [geocoded].
    set (full := (City row ++ ", " ++ Country row)%string).
    destruct (geocode_service (geocoded st) full) as [l |].
    + rewrite IH. cbn [geocoded set_geocoded].
      destruct (spec_resolve_rows geocode_service
                  (geocoded st ++ [full]) rest) as [rest' log'].
      cbn [fst snd map with_coords Lat Lon]. now rewrite <- !app_assoc.
    + cbn [geocoded].
      destruct (geocode_service (geocoded st ++ [full]) (City row)) as [l |];
        rewrite IH; cbn [geocoded set_geocoded];
        destruct (spec_resolve_rows geocode_service
                    ((geocoded st ++ [full]) ++ [City row]) rest)
          as [rest' log'];
        cbn [fst snd map with_coords Lat Lon]; now rewrite <- !app_assoc.
Qed.

End ResolverFacts.

Section ResolverTheorems.

Variable geocode_service : list string -> string -> option Location.

Lemma spec_resolve_row_shape (log : list string) (row : CityRow) :
  exists a o, fst (spec_resolve_row geocode_service log row) = with_coords row a o.
Proof.
  unfold spec_resolve_row.
  destruct (geocode_service log _);
    [| destruct (geocode_service _ (City row))]; eexists; eexists; reflexivity.
Qed.

Lemma assign_coords_resolved (rs : list CityRow) :
  forall log,
    assign_coords rs
      (map Lat (fst (spec_resolve_rows geocode_service log rs)))
      (map Lon (fst (spec_resolve_rows geocode_service log rs)))
    = Ok (fst (spec_resolve_rows geocode_service log rs)).
Proof.
  induction rs as [| row rest IH]; intros log; [reflexivity |].
  cbn [spec_resolve_rows].
  destruct (spec_resolve_row_shape log row) as (a & o & Hrow).
  destruct (spec_resolve_row geocode_service log row) as [row' log'].
  cbn [fst] in Hrow. subst row'.
  specialize (IH log').
  destruct (spec_resolve_rows geocode_service log' rest) as [rest' log''].
  cbn [fst map with_coords Lat Lon assign_coords] in *.
  rewrite IH. reflexivity.
Qed.

Lemma geocode_cities_spec (df : CitiesTable) (st : Env) :
  geocode_cities geocode_service df st
  = (set_geocoded st
       (snd (spec_resolve_rows geocode_service (geocoded st) (rows df))),
     Ok {| columns := set_column "Lon" (set_column "Lat" (columns df));
           rows := fst (spec_resolve_rows geocode_service (geocoded st)
                                          (rows df)) |}).
Proof.
  unfold geocode_cities, bindM. rewrite geocode_rows_spec.
  cbn [fst snd app]. unfold lift. rewrite assign_coords_resolved.
  reflexivity.
Qed.

Lemma resolve_locations_cases (cities : CitiesTable) (st : Env) :
  (has_column "Lat" (columns cities) && has_column "Lon" (columns cities)
   = true ->
   resolve_locations geocode_service cities st = (st, Ok cities))
  /\ (has_column "Lat" (columns cities) && has_column "Lon" (columns cities)
      = false ->
      let resolved :=
        spec_resolve_rows geocode_service (geocoded st) (rows cities) in
      let cities' :=
        {| columns := set_column "Lon" (set_column "Lat" (columns cities));
           rows := fst resolved |} in
      resolve_locations geocode_service cities st
      = ({| stdout := stdout st ++ [geocoding_notice; geocoding_done];
            geocoded := snd resolved;
            fetched := fetched st;
            written := written st ++ [(DATA_CSV, CitiesCsv cities')];
            records := records st;
            json_payload := json_payload st |},
         Ok cities')).
Proof.
  unfold resolve_locations. split; intros Hcols.
  - apply andb_true_iff in Hcols. destruct Hcols as [-> ->]. reflexivity.
  - rewrite <- negb_andb, Hcols. cbn [negb].
    unfold bindM at 1. unfold print at 1.
    unfold bindM at 1. rewrite geocode_cities_spec.
    cbn [geocoded set_geocoded stdout fetched written records json_payload].
    unfold bindM, write_file, print, ret.
    cbn [geocoded set_geocoded stdout fetched written records json_payload].
    rewrite <- app_assoc. reflexivity.
Qed.


(** C3 (as amended): the resolver is gated on the columns, not on the rows.
    When the table has both a Lat and a Lon column it is skipped entirely:
    no query, no write, the table unchanged, whatever the rows hold.  When
    either column is absent, every row of the table is geocoded in input
    order, each queried as "City, Country", retried as "City" alone on no
    match and given null coordinates on a second no match, and the resulting
    table is written back to the source file. *)
Theorem resolver_gated_on_columns (cities : CitiesTable) (st : Env) :
  (has_column "Lat" (columns cities) && has_column "Lon" (columns cities)
   = true ->
   resolve_locations geocode_service cities st = (st, Ok cities))
  /\ (has_column "Lat" (columns cities) && has_column "Lon" (columns cities)
      = false ->
      let resolved :=
        spec_resolve_rows geocode_service (geocoded st) (rows cities) in
      let cities' :=
        {| columns := set_column "Lon" (set_column "Lat" (columns cities));
           rows := fst resolved |} in
      resolve_locations geocode_service cities st
      = ({| stdout := stdout st ++ [geocoding_notice; geocoding_done];
            geocoded := snd resolved;
            fetched := fetched st;
            written := written st ++ [(DATA_CSV, CitiesCsv cities')];
            records := records st;
            json_payload := json_payload st |},
         Ok cities')).
Proof. exact (resolve_locations_cases cities st). Qed.

End ResolverTheorems.

(** The amended statement on the sample tables: the table read back with
    its coordinate columns is left alone, the fresh one is geocoded row by
    row and saved. *)
Lemma resolver_gated_on_columns_witness :
  resolve_locations Sample.geocoder Sample.reread_table initial_env
  = (initial_env, Ok Sample.reread_table)
  /\ resolve_locations Sample.geocoder Sample.fresh_table initial_env
     = (let cities' :=
          {| columns := ["City"; "Country"; "Lat"; "Lon"];
             rows := [with_coords Sample.lisbon_row
                                  (PyFloat 38.75) (PyFloat (-9.125));
                      with_coords Sample.porto_row
                                  (PyFloat 41.125) (PyFloat (-8.5));
                      with_coords Sample.springfield_row PyNone PyNone] |} in
        ({| stdout := [geocoding_notice; geocoding_done];
            geocoded := ["Lisbon, Portugal"; "Porto, Lusitania"; "Porto";
                         "Springfield, Nowhereland"; "Springfield"];
            fetched := [];
            written := [(DATA_CSV, CitiesCsv cities')];
            records := [];
            json_payload := [] |},
         Ok cities')).
Proof.
  split.
  - apply (proj1 (resolver_gated_on_columns Sample.geocoder
                    Sample.reread_table initial_env)).
    reflexivity.
  - apply (proj2 (resolver_gated_on_columns Sample.geocoder
                    Sample.fresh_table initial_env)).
    reflexivity.
Defined.

(** C3 as stated fails: in a table that has the Lat and Lon columns, a row
    without coordinates is not geocoded (no query is made, nothing is
    written), even with a geocoder that would find it. *)
Lemma resolver_skips_row_lacking_coordinates :
  In (with_coords Sample.springfield_row (PyFloat nan) (PyFloat nan))
     (rows Sample.reread_table)
  /\ pd_isna (Lat (with_coords Sample.springfield_row
                               (PyFloat nan) (PyFloat nan))) = true
  /\ resolve_locations Sample.any_geocoder Sample.reread_table initial_env
     = (initial_env, Ok Sample.reread_table)
  /\ geocoded (fst (resolve_locations Sample.any_geocoder
                      Sample.reread_table initial_env)) = [].
Proof.
  split; [right; left; reflexivity |].
  split; [reflexivity |]. split; reflexivity.
Qed.

(** ** The climate fetcher *)

Lemma dict_get_in_keys (d : list (string * pyval)) (k : string) :
  In k (dict_keys d) -> exists v, dict_get d k = Some v.
Proof.
  induction d as [| [k' v'] rest IH]; simpl; [tauto |].
  intros [Hk | Hk].
  - subst k'. rewrite String.eqb_refl. eauto.
  - destruct (String.eqb k' k); eauto.
Qed.

(** A month mapping built by the fetcher has the twelve month labels as its
    keys, in calendar order, and is all [None] when the column is absent. *)
Lemma monthly_dict_shape (conv : pyval -> result pyval) (df : Frame)
      (col : string) (d : list (string * pyval)) :
  monthly_dict conv df col (py_range 1 13) [] = Ok d ->
  dict_keys d = MONTHS
  /\ (has_column col (frame_columns df) = false ->
      d = map (fun m => (m, PyNone)) MONTHS).
Proof.
  intros H.
  change (py_range 1 13) with [1; 2; 3; 4; 5; 6; 7; 8; 9; 10; 11; 12] in H.
  cbn [monthly_dict] in H.
  destruct (has_column col (frame_columns df)) eqn:Hc.
  - repeat monthly_step H.
    inversion H; subst d. split; [reflexivity | discriminate].
  - repeat monthly_step H.
    inversion H; subst d. split; [reflexivity | intros _; reflexivity].
Qed.

Lemma months_getitem (i : Z) :
  1 <= i <= 12 -> exists k, list_getitem MONTHS (i - 1) = Ok k.
Proof.
  intros Hi.
  assert (H : i = 1 \/ i = 2 \/ i = 3 \/ i = 4 \/ i = 5 \/ i = 6 \/ i = 7
              \/ i = 8 \/ i = 9 \/ i = 10 \/ i = 11 \/ i = 12) by lia.
  repeat (destruct H as [-> | H]; [eexists; vm_compute; reflexivity |]).
  subst i. eexists. vm_compute. reflexivity.
Qed.

(** The conversions return on every cell of a frame. *)
Lemma c_to_f_cell_returns (x : float) : exists v, c_to_f (PyFloat x) = Ok v.
Proof.
  destruct (PrimFloat.is_nan x) eqn:Hx.
  - exists PyNone. unfold c_to_f. simpl is_none_or_nan. now rewrite Hx.
  - eexists. apply c_to_f_float. exact Hx.
Qed.

Lemma mm_to_in_cell_returns (x : float) : exists v, mm_to_in (PyFloat x) = Ok v.
Proof.
  destruct (PrimFloat.is_nan x) eqn:Hx.
  - exists PyNone. unfold mm_to_in. simpl is_none_or_nan. now rewrite Hx.
  - eexists. apply mm_to_in_float. exact Hx.
Qed.

Lemma monthly_dict_returns (conv : pyval -> result pyval) (df : Frame)
      (col : string) :
  (forall x, exists v, conv (PyFloat x) = Ok v) ->
  forall indices d,
    Forall (fun i => 1 <= i <= 12 /\ In i (frame_index df)) indices ->
    exists d', monthly_dict conv df col indices d = Ok d'.
Proof.
  intros Hconv indices. induction indices as [| i rest IH]; intros d Hall.
  - simpl. eauto.
  - inversion Hall as [| ? ? [Hi Hin] Hrest]; subst.
    cbn [monthly_dict].
    destruct (months_getitem i Hi) as [k ->]. cbn [bind].
    destruct (has_column col (frame_columns df)) eqn:Hc.
    + unfold frame_loc. rewrite Hc.
      replace (existsb (Z.eqb i) (frame_index df)) with true.
      * cbn [negb bind]. destruct (Hconv (frame_at df i col)) as [v ->].
        cbn [bind]. apply IH. exact Hrest.
      * symmetry. apply existsb_exists. exists i. split; [exact Hin |].
        apply Z.eqb_refl.
    + cbn [bind]. apply IH. exact Hrest.
Qed.


Section FetcherFacts.

Variable normals_service :
  list (pyval * pyval) -> pyval -> pyval -> result (option Frame).

(** The fetch is logged whatever it returns. *)
Lemma fetch_state (lat lon : pyval) (st : Env) :
  fst (fetch_normals_for_point normals_service lat lon st)
  = set_fetched st (fetched st ++ [(lat, lon)]).
Proof.
  unfold fetch_normals_for_point, bindM, normals_fetch.
  destruct (normals_service (fetched st) lat lon) as [[df |] | e];
    try reflexivity.
  destruct (frame_empty df || _); [reflexivity |].
  unfold lift, ret.
  repeat (match goal with
          | |- context [monthly_dict ?c ?d ?k ?r ?a] =>
              destruct (monthly_dict c d k r a)
          end; try reflexivity).
Qed.

(** What the fetcher returns on a response without twelve usable rows. *)
Lemma fetch_unusable (lat lon : pyval) (st : Env) :
  (normals_service (fetched st) lat lon = Ok None
   \/ exists df, normals_service (fetched st) lat lon = Ok (Some df)
                 /\ (frame_empty df = true
                     \/ (List.length (frame_index df) < 12)%nat)) ->
  fetch_normals_for_point normals_service lat lon st
  = (set_fetched st (fetched st ++ [(lat, lon)]), Ok (PyDict [])).
Proof.
  unfold fetch_normals_for_point, bindM, normals_fetch.
  intros [-> | (df & -> & Hdf)]; [reflexivity |].
  assert (Hc : frame_empty df
               || (Z.of_nat (List.length (frame_index df)) <? 12) = true).
  { apply orb_true_iff. destruct Hdf as [He | Hl]; [left; exact He | right].
    apply Z.ltb_lt. lia. }
  rewrite Hc. reflexivity.
Qed.

(** A result of the fetcher is empty or holds the four month mappings of a
    frame that has twelve rows or more. *)
Lemma fetch_result_shape (lat lon : pyval) (st st' : Env) (v : pyval) :
  fetch_normals_for_point normals_service lat lon st = (st', Ok v) ->
  v = PyDict []
  \/ exists df tavg tmin tmax prcp,
      normals_service (fetched st) lat lon = Ok (Some df)
      /\ frame_empty df = false
      /\ (12 <= List.length (frame_index df))%nat
      /\ monthly_dict c_to_f df "tavg" (py_range 1 13) [] = Ok tavg
      /\ monthly_dict c_to_f df "tmin" (py_range 1 13) [] = Ok tmin
      /\ monthly_dict c_to_f df "tmax" (py_range 1 13) [] = Ok tmax
      /\ monthly_dict mm_to_in df "prcp" (py_range 1 13) [] = Ok prcp
      /\ v = PyDict [("tavg_f", PyDict tavg); ("tmin_f", PyDict tmin);
                     ("tmax_f", PyDict tmax); ("prcp_in", PyDict prcp)].
Proof.
  unfold fetch_normals_for_point, bindM, normals_fetch.
  destruct (normals_service (fetched st) lat lon) as [[df |] | e];
    [| intros H; inversion H; left; reflexivity | discriminate].
  destruct (frame_empty df || _) eqn:Hc;
    [intros H; inversion H; left; reflexivity |].
  apply orb_false_iff in Hc. destruct Hc as [He Hl]. apply Z.ltb_ge in Hl.
  unfold lift, ret.
  destruct (monthly_dict c_to_f df "tavg" _ _) as [tavg |] eqn:Ha;
    [| discriminate].
  destruct (monthly_dict c_to_f df "tmin" _ _) as [tmin |] eqn:Hi;
    [| discriminate].
  destruct (monthly_dict c_to_f df "tmax" _ _) as [tmax |] eqn:Hx;
    [| discriminate].
  destruct (monthly_dict mm_to_in df "prcp" _ _) as [prcp |] eqn:Hp;
    [| discriminate].
  intros H. inversion H. right.
  exists df, tavg, tmin, tmax, prcp.
  repeat split; try reflexivity; try assumption. lia.
Qed.

(** On a table with columns and a row for each month [1..12], the fetcher
    returns a non-empty result. *)
Lemma fetch_returns_normals (lat lon : pyval) (st : Env) (df : Frame) :
  normals_service (fetched st) lat lon = Ok (Some df) ->
  frame_columns df <> [] ->
  (forall i, 1 <= i <= 12 -> In i (frame_index df)) ->
  exists v,
    fetch_normals_for_point normals_service lat lon st
    = (set_fetched st (fetched st ++ [(lat, lon)]), Ok v)
    /\ py_truthy v = true.
Proof.
  intros Hs Hcols Hidx.
  assert (Hall : Forall (fun i => 1 <= i <= 12 /\ In i (frame_index df))
                        (py_range 1 13)).
  { apply Forall_forall. intros i Hi.
    assert (H12 : 1 <= i <= 12).
    { change (py_range 1 13) with [1; 2; 3; 4; 5; 6; 7; 8; 9; 10; 11; 12] in Hi.
      simpl in Hi. lia. }
    split; [exact H12 | apply Hidx; exact H12]. }
  assert (Hlen : (12 <= List.length (frame_index df))%nat).
  { change 12%nat with (List.length (py_range 1 13)).
    apply NoDup_incl_length.
    - change (py_range 1 13) with [1; 2; 3; 4; 5; 6; 7; 8; 9; 10; 11; 12].
      repeat (constructor; [simpl; lia |]). constructor.
    - intros i Hi. rewrite Forall_forall in Hall. apply (Hall i Hi). }
  unfold fetch_normals_for_point, bindM, normals_fetch. rewrite Hs.
  replace (frame_empty df
           || (Z.of_nat (List.length (frame_index df)) <? 12)) with false.
  - unfold lift, ret.
    destruct (monthly_dict_returns c_to_f df "tavg" c_to_f_cell_returns
                (py_range 1 13) [] Hall) as [tavg ->].
    destruct (monthly_dict_returns c_to_f df "tmin" c_to_f_cell_returns
                (py_range 1 13) [] Hall) as [tmin ->].
    destruct (monthly_dict_returns c_to_f df "tmax" c_to_f_cell_returns
                (py_range 1 13) [] Hall) as [tmax ->].
    destruct (monthly_dict_returns mm_to_in df "prcp" mm_to_in_cell_returns
                (py_range 1 13) [] Hall) as [prcp ->].
    eexists. split; reflexivity.
  - symmetry. apply orb_false_iff. split.
    + unfold frame_empty. destruct (frame_index df); [simpl in Hlen; lia |].
      destruct (frame_columns df); [contradiction | reflexivity].
    + apply Z.ltb_ge. lia.
Qed.

End FetcherFacts.

Section FetcherTheorems.

Variable normals_service :
  list (pyval * pyval) -> pyval -> pyval -> result (option Frame).

(** C4: when the climate source returns no table, an empty table or a table
    of fewer than twelve rows, the fetcher returns the empty result; and
    whatever the source returns, a result of the fetcher is either empty or
    has all twelve months in each of its four mappings. *)
Theorem fetch_without_twelve_rows_is_empty (lat lon : pyval) (st : Env) :
  ((normals_service (fetched st) lat lon = Ok None
    \/ exists df, normals_service (fetched st) lat lon = Ok (Some df)
                  /\ (frame_empty df = true
                      \/ (List.length (frame_index df) < 12)%nat)) ->
   fetch_normals_for_point normals_service lat lon st
   = (set_fetched st (fetched st ++ [(lat, lon)]), Ok (PyDict [])))
  /\ (forall st' v,
        fetch_normals_for_point normals_service lat lon st = (st', Ok v) ->
        v = PyDict []
        \/ exists tavg tmin tmax prcp,
            v = PyDict [("tavg_f", PyDict tavg); ("tmin_f", PyDict tmin);
                        ("tmax_f", PyDict tmax); ("prcp_in", PyDict prcp)]
            /\ dict_keys tavg = MONTHS /\ dict_keys tmin = MONTHS
            /\ dict_keys tmax = MONTHS /\ dict_keys prcp = MONTHS
            /\ List.length MONTHS = 12%nat).
Proof.
  split; [apply fetch_unusable |].
  intros st' v H.
  destruct (fetch_result_shape normals_service lat lon st st' v H)
    as [Hv | (df & tavg & tmin & tmax & prcp & _ & _ & _ & Ha & Hi & Hx & Hp & Hv)];
    [left; exact Hv | right].
  exists tavg, tmin, tmax, prcp.
  split; [exact Hv |].
  repeat split;
    first [ exact (proj1 (monthly_dict_shape _ _ _ _ Ha))
          | exact (proj1 (monthly_dict_shape _ _ _ _ Hi))
          | exact (proj1 (monthly_dict_shape _ _ _ _ Hx))
          | exact (proj1 (monthly_dict_shape _ _ _ _ Hp)) ].
Qed.

(** C5: in every non-empty result of the fetcher the four mappings have the
    same keys, the twelve month labels Jan..Dec; a mapping whose source
    column (tavg, tmin, tmax or prcp) is absent from the table has all
    twelve keys, each with the value [None]. *)
Theorem fetch_mappings_share_month_keys
        (lat lon : pyval) (st st' : Env) (v : pyval)
        (Hfetch : fetch_normals_for_point normals_service lat lon st
                  = (st', Ok v))
        (Hnonempty : v <> PyDict []) :
  exists df tavg tmin tmax prcp,
    normals_service (fetched st) lat lon = Ok (Some df)
    /\ v = PyDict [("tavg_f", PyDict tavg); ("tmin_f", PyDict tmin);
                   ("tmax_f", PyDict tmax); ("prcp_in", PyDict prcp)]
    /\ (dict_keys tavg = MONTHS /\ dict_keys tmin = MONTHS
        /\ dict_keys tmax = MONTHS /\ dict_keys prcp = MONTHS)
    /\ (has_column "tavg" (frame_columns df) = false ->
        tavg = map (fun m => (m, PyNone)) MONTHS)
    /\ (has_column "tmin" (frame_columns df) = false ->
        tmin = map (fun m => (m, PyNone)) MONTHS)
    /\ (has_column "tmax" (frame_columns df) = false ->
        tmax = map (fun m => (m, PyNone)) MONTHS)
    /\ (has_column "prcp" (frame_columns df) = false ->
        prcp = map (fun m => (m, PyNone)) MONTHS).
Proof.
  destruct (fetch_result_shape normals_service lat lon st st' v Hfetch)
    as [Hv | (df & tavg & tmin & tmax & prcp & Hs & _ & _ & Ha & Hi & Hx & Hp & Hv)];
    [contradiction |].
  exists df, tavg, tmin, tmax, prcp.
  destruct (monthly_dict_shape _ _ _ _ Ha) as [Ka Na].
  destruct (monthly_dict_shape _ _ _ _ Hi) as [Ki Ni].
  destruct (monthly_dict_shape _ _ _ _ Hx) as [Kx Nx].
  destruct (monthly_dict_shape _ _ _ _ Hp) as [Kp Np].
  repeat split; assumption.
Qed.

End FetcherTheorems.

(** The eleven-month frame of the sample source gives the empty result. *)
Lemma fetch_without_twelve_rows_is_empty_witness :
  fetch_normals_for_point Sample.normals_service
                          (PyFloat 41.125) (PyFloat (-8.5)) initial_env
  = (set_fetched initial_env [(PyFloat 41.125, PyFloat (-8.5))],
     Ok (PyDict [])).
Proof.
  apply (proj1 (fetch_without_twelve_rows_is_empty Sample.normals_service
                  (PyFloat 41.125) (PyFloat (-8.5)) initial_env)).
  right. exists Sample.frame11. split; [reflexivity |].
  right. simpl. lia.
Defined.

Lemma dry_fetch :
  fetch_normals_for_point Sample.dry_service
                          (PyFloat 38.75) (PyFloat (-9.125)) initial_env
  = (set_fetched initial_env [(PyFloat 38.75, PyFloat (-9.125))],
     Ok (PyDict [("tavg_f", PyDict (Sample.months_of (PyFloat 68)));
                 ("tmin_f", PyDict (Sample.months_of (PyFloat 59)));
                 ("tmax_f", PyDict (Sample.months_of (PyFloat 77)));
                 ("prcp_in", PyDict (Sample.months_of PyNone))])).
Proof. vm_compute. reflexivity. Qed.

(** On the source without a precipitation column the result has the twelve
    months in all four mappings. *)
Lemma fetch_mappings_share_month_keys_witness :
  exists df tavg tmin tmax prcp,
    Sample.dry_service [] (PyFloat 38.75) (PyFloat (-9.125)) = Ok (Some df)
    /\ PyDict [("tavg_f", PyDict (Sample.months_of (PyFloat 68)));
               ("tmin_f", PyDict (Sample.months_of (PyFloat 59)));
               ("tmax_f", PyDict (Sample.months_of (PyFloat 77)));
               ("prcp_in", PyDict (Sample.months_of PyNone))]
       = PyDict [("tavg_f", PyDict tavg); ("tmin_f", PyDict tmin);
                 ("tmax_f", PyDict tmax); ("prcp_in", PyDict prcp)]
    /\ (dict_keys tavg = MONTHS /\ dict_keys tmin = MONTHS
        /\ dict_keys tmax = MONTHS /\ dict_keys prcp = MONTHS)
    /\ (has_column "tavg" (frame_columns df) = false ->
        tavg = map (fun m => (m, PyNone)) MONTHS)
    /\ (has_column "tmin" (frame_columns df) = false ->
        tmin = map (fun m => (m, PyNone)) MONTHS)
    /\ (has_column "tmax" (frame_columns df) = false ->
        tmax = map (fun m => (m, PyNone)) MONTHS)
    /\ (has_column "prcp" (frame_columns df) = false ->
        prcp = map (fun m => (m, PyNone)) MONTHS).
Proof.
  apply (fetch_mappings_share_month_keys Sample.dry_service
           (PyFloat 38.75) (PyFloat (-9.125)) initial_env _ _ dry_fetch).
  discriminate.
Defined.

(** ** The per-city loop *)

Lemma normals_at_ok (fields : list (string * pyval)) (field m : string)
      (d : list (string * pyval)) :
  dict_get fields field = Some (PyDict d) ->
  In m (dict_keys d) ->
  exists x, normals_at (PyDict fields) field m = Ok x.
Proof.
  intros Hf Hm. unfold normals_at, py_getitem. rewrite Hf. cbn [bind].
  destruct (dict_get_in_keys d m Hm) as [x Hx]. rewrite Hx. eauto.
Qed.

Lemma fill_out_row_total (normals : pyval) (ms : list string) :
  (forall field m,
      In field ["tavg_f"; "tmin_f"; "tmax_f"; "prcp_in"] -> In m ms ->
      exists x, normals_at normals field m = Ok x) ->
  forall out_row, exists out_row', fill_out_row normals ms out_row = Ok out_row'.
Proof.
  induction ms as [| m rest IH]; intros Hall out_row; [simpl; eauto |].
  cbn [fill_out_row].
  destruct (Hall "tavg_f" m) as [a ->]; [simpl; tauto | left; reflexivity |].
  destruct (Hall "tmin_f" m) as [b ->]; [simpl; tauto | left; reflexivity |].
  destruct (Hall "tmax_f" m) as [c ->]; [simpl; tauto | left; reflexivity |].
  destruct (Hall "prcp_in" m) as [p ->]; [simpl; tauto | left; reflexivity |].
  cbn [bind]. apply IH. intros field m' Hf Hm'. apply Hall; [exact Hf |].
  right. exact Hm'.
Qed.

Section LoopFacts.

Variable normals_service :
  list (pyval * pyval) -> pyval -> pyval -> result (option Frame).

(** What one iteration does, by the outcome for the city. *)
Lemma process_city_cases (row : CityRow) (st : Env) :
  let st1 := set_fetched st (fetched st ++ [(Lat row, Lon row)]) in
  match outcome normals_service row st with
  | Skipped =>
      process_city normals_service row st
      = (set_stdout st (stdout st ++ [skip_line (City row) (Country row)]),
         Ok tt)
  | NoNormals =>
      process_city normals_service row st
      = (set_stdout st1
           (stdout st ++ [no_normals_line (City row) (Country row)]),
         Ok tt)
  | Failed e =>
      process_city normals_service row st
      = (set_stdout st1
           (stdout st ++ [error_line (City row) (Country row) e]),
         Ok tt)
  | Collected =>
      exists out_row obj,
        process_city normals_service row st
        = ({| stdout := stdout st; geocoded := geocoded st;
              fetched := fetched st ++ [(Lat row, Lon row)];
              written := written st;
              records := records st ++ [out_row];
              json_payload := json_payload st ++ [obj] |},
           Ok tt)
  end.
Proof.
  intros st1. unfold outcome, process_city.
  destruct (pd_isna (Lat row) || pd_isna (Lon row)); [reflexivity |].
  unfold try_except, try_city, bindM.
  pose proof (fetch_state normals_service (Lat row) (Lon row) st) as Hst.
  destruct (fetch_normals_for_point normals_service (Lat row) (Lon row) st)
    as [st' [v | e]] eqn:Hf; cbn [fst] in Hst; subst st'; [| reflexivity].
  destruct (py_truthy v) eqn:Htruthy; cbn [negb]; [| reflexivity].
  destruct (fetch_result_shape normals_service _ _ _ _ _ Hf)
    as [Hv | (df & tavg & tmin & tmax & prcp & _ & _ & _ & Ha & Hi & Hx & Hp & Hv)];
    subst v; [discriminate Htruthy |].
  destruct (monthly_dict_shape _ _ _ _ Ha) as [Ka _].
  destruct (monthly_dict_shape _ _ _ _ Hi) as [Ki _].
  destruct (monthly_dict_shape _ _ _ _ Hx) as [Kx _].
  destruct (monthly_dict_shape _ _ _ _ Hp) as [Kp _].
  match goal with
  | |- context [fill_out_row ?n ?ms ?r] =>
      destruct (fill_out_row_total n ms) with (out_row := r) as [out_row ->]
  end.
  { intros field m Hfield Hm.
    destruct Hfield as [<- | [<- | [<- | [<- | []]]]];
      eapply normals_at_ok; try reflexivity;
      first [rewrite Ka | rewrite Ki | rewrite Kx | rewrite Kp]; exact Hm. }
  unfold lift, records_append, json_payload_append. cbn.
  eexists. eexists. reflexivity.
Qed.

(** No exception leaves an iteration. *)
Lemma process_city_returns (row : CityRow) (st : Env) :
  snd (process_city normals_service row st) = Ok tt.
Proof.
  pose proof (process_city_cases row st) as H. cbv zeta in H.
  destruct (outcome normals_service row st);
    try (rewrite H; reflexivity).
  destruct H as (out_row & obj & ->). reflexivity.
Qed.

Lemma for_each_cons (row : CityRow) (rest : list CityRow) (st : Env) :
  for_each (row :: rest) (process_city normals_service) st
  = for_each rest (process_city normals_service)
             (fst (process_city normals_service row st)).
Proof.
  cbn [for_each]. unfold bindM.
  pose proof (process_city_returns row st) as H.
  destruct (process_city normals_service row st) as [st' r].
  cbn [snd] in H. subst r. reflexivity.
Qed.

Lemma for_each_returns (rs : list CityRow) :
  forall st, snd (for_each rs (process_city normals_service) st) = Ok tt.
Proof.
  induction rs as [| row rest IH]; intros st; [reflexivity |].
  rewrite for_each_cons. apply IH.
Qed.

End LoopFacts.

(** ** Printed lines do not steer the run *)

Lemma same_but_stdout_set (st : Env) (out : list string) :
  same_but_stdout (set_stdout st out) st.
Proof. repeat split. Qed.

Lemma ignores_ret {A : Type} (a : A) : ignores_stdout (ret a).
Proof. intros st1 st2 H. split; [exact H | reflexivity]. Qed.

Lemma ignores_lift {A : Type} (r : result A) : ignores_stdout (lift r).
Proof. intros st1 st2 H. split; [exact H | reflexivity]. Qed.

Lemma ignores_print (line : string) : ignores_stdout (print line).
Proof. intros st1 st2 H. split; [exact H | reflexivity]. Qed.

Lemma ignores_write_file (name : string) (data : FileData) :
  ignores_stdout (write_file name data).
Proof.
  intros st1 st2 (H1 & H2 & H3 & H4 & H5).
  split; [| reflexivity]. unfold write_file, same_but_stdout. cbn.
  repeat split; congruence.
Qed.

Lemma ignores_records_append (r : pyval) : ignores_stdout (records_append r).
Proof.
  intros st1 st2 (H1 & H2 & H3 & H4 & H5).
  split; [| reflexivity]. unfold records_append, same_but_stdout. cbn.
  repeat split; congruence.
Qed.

Lemma ignores_json_payload_append (r : pyval) :
  ignores_stdout (json_payload_append r).
Proof.
  intros st1 st2 (H1 & H2 & H3 & H4 & H5).
  split; [| reflexivity]. unfold json_payload_append, same_but_stdout. cbn.
  repeat split; congruence.
Qed.

Lemma ignores_reset_accumulators : ignores_stdout reset_accumulators.
Proof.
  intros st1 st2 (H1 & H2 & H3 & H4 & H5).
  split; [| reflexivity]. unfold reset_accumulators, same_but_stdout. cbn.
  repeat split; congruence.
Qed.

Lemma ignores_read_json (name : string) : ignores_stdout (read_json name).
Proof.
  intros st1 st2 H. pose proof H as (H1 & H2 & H3 & H4 & H5).
  unfold read_json. rewrite H3.
  destruct (last_written name (written st2)) as [[] |];
    (split; [exact H | reflexivity]).
Qed.

Lemma ignores_bind {A B : Type} (c : M A) (k : A -> M B) :
  ignores_stdout c -> (forall a, ignores_stdout (k a)) ->
  ignores_stdout (bindM c k).
Proof.
  intros Hc Hk st1 st2 H. unfold bindM.
  destruct (Hc st1 st2 H) as [Hs Hr].
  destruct (c st1) as [s1 r1], (c st2) as [s2 r2]. cbn [fst snd] in *.
  subst r2. destruct r1 as [a | e]; [apply (Hk a); exact Hs |].
  split; [exact Hs | reflexivity].
Qed.

Lemma ignores_try_except (body : M unit) (handler : exn -> M unit) :
  ignores_stdout body -> (forall e, ignores_stdout (handler e)) ->
  ignores_stdout (try_except body handler).
Proof.
  intros Hb Hh st1 st2 H. unfold try_except.
  destruct (Hb st1 st2 H) as [Hs Hr].
  destruct (body st1) as [s1 r1], (body st2) as [s2 r2]. cbn [fst snd] in *.
  subst r2. destruct r1 as [[] | e]; [split; [exact Hs | reflexivity] |].
  apply (Hh e). exact Hs.
Qed.

Lemma ignores_for_each {A : Type} (xs : list A) (body : A -> M unit) :
  (forall x, ignores_stdout (body x)) -> ignores_stdout (for_each xs body).
Proof.
  intros Hb. induction xs as [| x rest IH]; cbn [for_each].
  - apply ignores_ret.
  - apply ignores_bind; [apply Hb | intros _; exact IH].
Qed.

Section RunFacts.

Variable normals_service :
  list (pyval * pyval) -> pyval -> pyval -> result (option Frame).

Lemma ignores_normals_fetch (lat lon : pyval) :
  ignores_stdout (normals_fetch normals_service lat lon).
Proof.
  intros st1 st2 (H1 & H2 & H3 & H4 & H5).
  unfold normals_fetch, same_but_stdout. cbn. rewrite H2.
  split; [repeat split; congruence | reflexivity].
Qed.

Lemma ignores_fetch (lat lon : pyval) :
  ignores_stdout (fetch_normals_for_point normals_service lat lon).
Proof.
  unfold fetch_normals_for_point.
  apply ignores_bind; [apply ignores_normals_fetch |].
  intros [df |]; [| apply ignores_ret].
  destruct (frame_empty df || _); [apply ignores_ret |].
  repeat (apply ignores_bind; [apply ignores_lift | intros ?]).
  apply ignores_ret.
Qed.

Lemma ignores_process_city (row : CityRow) :
  ignores_stdout (process_city normals_service row).
Proof.
  unfold process_city.
  destruct (pd_isna (Lat row) || pd_isna (Lon row)); [apply ignores_print |].
  apply ignores_try_except; [| intros e; apply ignores_print].
  unfold try_city.
  apply ignores_bind; [apply ignores_fetch | intros normals].
  destruct (negb (py_truthy normals)); [apply ignores_print |].
  apply ignores_bind; [apply ignores_lift | intros out_row].
  apply ignores_bind; [apply ignores_records_append | intros _].
  repeat (apply ignores_bind; [apply ignores_lift | intros ?]).
  apply ignores_json_payload_append.
Qed.

Lemma ignores_emit : ignores_stdout emit.
Proof.
  intros st1 st2 H. pose proof H as (H1 & H2 & H3 & H4 & H5).
  unfold emit. rewrite H4, H5.
  destruct (records st2) as [| r rs]; [apply ignores_print; exact H |].
  refine (ignores_bind _ _ (ignores_write_file _ _) _ st1 st2 H). intros _.
  apply ignores_bind; [apply ignores_write_file | intros _].
  apply ignores_bind; [apply ignores_read_json | intros city_data].
  apply ignores_bind; [apply ignores_write_file | intros _].
  apply ignores_bind; [apply ignores_print | intros _].
  apply ignores_print.
Qed.

End RunFacts.

(** ** The run: loop and emission *)

Lemma last_written_app (name : string) (w : list (string * FileData))
      (n : string) (d : FileData) :
  last_written name (w ++ [(n, d)])
  = if String.eqb n name then Some d else last_written name w.
Proof.
  induction w as [| [n' d'] rest IH]; cbn [app last_written].
  - destruct (String.eqb n name); reflexivity.
  - rewrite IH. destruct (String.eqb n name); [reflexivity |].
    destruct (last_written name rest); reflexivity.
Qed.

(** The end of [main], by whether anything was collected. *)
Lemma emit_cases (st : Env) :
  (records st = [] ->
   emit st = (set_stdout st (stdout st ++ [no_data_line]), Ok tt))
  /\ (records st <> [] ->
      emit st
      = ({| stdout := stdout st ++ [done_line; tip_line];
            geocoded := geocoded st;
            fetched := fetched st;
            written := written st
                       ++ [(OUT_CSV, RecordsCsv (records st));
                           (OUT_JSON, JsonText (json_payload st));
                           (OUT_HTML, HtmlPage (json_payload st) MONTHS
                                               COMFORT_MIN_F COMFORT_MAX_F)];
            records := records st;
            json_payload := json_payload st |},
         Ok tt)).
Proof.
  unfold emit. split; intros H.
  - rewrite H. reflexivity.
  - destruct (records st) as [| r rs] eqn:Hr; [contradiction |].
    unfold bindM, write_file, read_json, print.
    cbn [written stdout geocoded fetched records json_payload].
    rewrite last_written_app, String.eqb_refl.
    cbn [written stdout geocoded fetched records json_payload].
    rewrite <- !app_assoc, Hr. reflexivity.
Qed.

Section RunTheorems.

Variable geocode_service : list string -> string -> option Location.
Variable normals_service :
  list (pyval * pyval) -> pyval -> pyval -> result (option Frame).

Lemma for_each_app (before after : list CityRow) :
  forall st,
    for_each (before ++ after) (process_city normals_service) st
    = for_each after (process_city normals_service)
               (fst (for_each before (process_city normals_service) st)).
Proof.
  induction before as [| row rest IH]; intros st; [reflexivity |].
  rewrite <- app_comm_cons, !for_each_cons. apply IH.
Qed.

Lemma collect_unfold (cities : CitiesTable) (st : Env) :
  collect normals_service cities st
  = for_each (rows cities) (process_city normals_service)
             (fst (reset_accumulators st)).
Proof. reflexivity. Qed.

Lemma collect_returns (cities : CitiesTable) (st : Env) :
  snd (collect normals_service cities st) = Ok tt.
Proof. rewrite collect_unfold. apply for_each_returns. Qed.

(** After the loop comes the emission. *)
Lemma collect_then_emit (cities : CitiesTable) (st : Env) :
  (collect normals_service cities ;;; emit) st
  = emit (fst (collect normals_service cities st)).
Proof.
  unfold bindM. pose proof (collect_returns cities st) as H.
  destruct (collect normals_service cities st) as [st' r].
  cbn [snd fst] in *. subst r. reflexivity.
Qed.

(** An iteration writes no file and makes no geocoding query. *)
Lemma process_city_keeps_files (row : CityRow) (st : Env) :
  written (fst (process_city normals_service row st)) = written st
  /\ geocoded (fst (process_city normals_service row st)) = geocoded st.
Proof.
  pose proof (process_city_cases normals_service row st) as H. cbv zeta in H.
  destruct (outcome normals_service row st);
    try (rewrite H; split; reflexivity).
  destruct H as (out_row & obj & ->). split; reflexivity.
Qed.

Lemma for_each_keeps_files (rs : list CityRow) :
  forall st,
    written (fst (for_each rs (process_city normals_service) st)) = written st
    /\ geocoded (fst (for_each rs (process_city normals_service) st))
       = geocoded st.
Proof.
  induction rs as [| row rest IH]; intros st; [split; reflexivity |].
  rewrite for_each_cons.
  destruct (IH (fst (process_city normals_service row st))) as [Hw Hg].
  destruct (process_city_keeps_files row st) as [Hw' Hg'].
  split; congruence.
Qed.

(** The two accumulators grow together, by one per collected city. *)
Lemma process_city_counts (row : CityRow) (st : Env) :
  let st' := fst (process_city normals_service row st) in
  if is_collected (outcome normals_service row st)
  then List.length (records st') = S (List.length (records st))
       /\ List.length (json_payload st') = S (List.length (json_payload st))
  else records st' = records st /\ json_payload st' = json_payload st.
Proof.
  pose proof (process_city_cases normals_service row st) as H. cbv zeta in *.
  destruct (outcome normals_service row st); cbn [is_collected];
    try (rewrite H; split; reflexivity).
  destruct H as (out_row & obj & ->). cbn [fst records json_payload].
  rewrite !length_app. cbn [List.length]. split; lia.
Qed.

Lemma for_each_counts (rs : list CityRow) :
  forall st,
    let st' := fst (for_each rs (process_city normals_service) st) in
    List.length (records st')
    = (List.length (records st) + collected_count normals_service rs st)%nat
    /\ List.length (json_payload st')
       = (List.length (json_payload st)
          + collected_count normals_service rs st)%nat.
Proof.
  induction rs as [| row rest IH]; intros st; cbv zeta.
  - cbn. split; lia.
  - rewrite for_each_cons. cbn [collected_count].
    specialize (IH (fst (process_city normals_service row st))).
    cbv zeta in IH. destruct IH as [IHr IHj].
    pose proof (process_city_counts row st) as Hc. cbv zeta in Hc.
    destruct (is_collected (outcome normals_service row st));
      destruct Hc as [Hr Hj]; rewrite IHr, IHj, Hr, Hj; split; lia.
Qed.

(** The resolver returns, having written at most the cities table. *)
Lemma resolve_locations_returns (cities : CitiesTable) (st : Env) :
  exists sR cities',
    resolve_locations geocode_service cities st = (sR, Ok cities')
    /\ (written sR = written st
        \/ exists d, written sR = written st ++ [(DATA_CSV, d)]).
Proof.
  destruct (resolve_locations_cases geocode_service cities st) as [Hboth Hmiss].
  destruct (has_column "Lat" (columns cities)
            && has_column "Lon" (columns cities)).
  - exists st, cities. split; [apply Hboth; reflexivity | left; reflexivity].
  - cbv zeta in Hmiss. rewrite (Hmiss eq_refl).
    eexists. eexists. split; [reflexivity |].
    right. eexists. reflexivity.
Qed.

(** [main] is the emission run on the state the resolver and the loop
    leave. *)
Lemma main_as_emit (cities : CitiesTable) (st : Env) :
  main geocode_service normals_service cities st
  = emit (fst ((cities' <~ resolve_locations geocode_service cities ;;
                collect normals_service cities') st)).
Proof.
  unfold main, bindM.
  destruct (resolve_locations_returns cities st) as (sR & c' & Hres & _).
  rewrite Hres.
  pose proof (collect_returns c' sR) as Hret.
  destruct (collect normals_service c' sR) as [st1 r].
  cbn [fst snd] in *. subst r. reflexivity.
Qed.

(** Up to the emission, a run writes at most the cities table. *)
Lemma written_before_emit (cities : CitiesTable) (st : Env) :
  let st1 := fst ((cities' <~ resolve_locations geocode_service cities ;;
                   collect normals_service cities') st) in
  written st1 = written st
  \/ exists d, written st1 = written st ++ [(DATA_CSV, d)].
Proof.
  cbv zeta. unfold bindM.
  destruct (resolve_locations_returns cities st) as (sR & c' & Hres & Hw).
  rewrite Hres. rewrite collect_unfold.
  destruct (for_each_keeps_files (rows c') (fst (reset_accumulators sR)))
    as [Hkeep _].
  rewrite Hkeep. exact Hw.
Qed.

End RunTheorems.

Lemma string_app_assoc (a b c : string) :
  ((a ++ b) ++ c)%string = (a ++ (b ++ c))%string.
Proof.
  induction a as [| ch a IH]; cbn [String.append]; [reflexivity |].
  now rewrite IH.
Qed.

Section RunClaims.

Variable geocode_service : list string -> string -> option Location.
Variable normals_service :
  list (pyval * pyval) -> pyval -> pyval -> result (option Frame).

(** C6: a row whose Lat or Lon is null is skipped before any climate fetch
    (the iteration only prints the skip line), and the run over a table
    that holds the row writes the same files, makes the same fetches and
    collects the same records as the run over the table without it: the
    city is in none of the CSV, JSON and HTML artifacts. *)
Theorem null_coordinates_excluded
        (row : CityRow)
        (Hnull : pd_isna (Lat row) || pd_isna (Lon row) = true) :
  (forall st,
      process_city normals_service row st
      = (set_stdout st (stdout st ++ [skip_line (City row) (Country row)]),
         Ok tt))
  /\ (forall cols before after st,
        let with_row :=
          (collect normals_service
                   {| columns := cols; rows := before ++ row :: after |}
           ;;; emit) st in
        let without :=
          (collect normals_service
                   {| columns := cols; rows := before ++ after |}
           ;;; emit) st in
        written (fst with_row) = written (fst without)
        /\ fetched (fst with_row) = fetched (fst without)
        /\ records (fst with_row) = records (fst without)
        /\ json_payload (fst with_row) = json_payload (fst without)
        /\ snd with_row = snd without).
Proof.
  assert (Hskip : forall st,
             process_city normals_service row st
             = (set_stdout st
                  (stdout st ++ [skip_line (City row) (Country row)]),
                Ok tt)).
  { intros st. unfold process_city. rewrite Hnull. reflexivity. }
  split; [exact Hskip |].
  intros cols before after st. cbv zeta.
  rewrite !collect_then_emit, !collect_unfold. cbn [rows].
  rewrite !for_each_app, for_each_cons, Hskip. cbn [fst].
  set (sA := fst (for_each before (process_city normals_service)
                           (fst (reset_accumulators st)))).
  assert (Hafter :
            same_but_stdout
              (fst (for_each after (process_city normals_service)
                      (set_stdout sA (stdout sA
                                      ++ [skip_line (City row) (Country row)]))))
              (fst (for_each after (process_city normals_service) sA))).
  { apply ignores_for_each; [apply ignores_process_city |].
    apply same_but_stdout_set. }
  destruct (ignores_emit _ _ Hafter) as [(Hg & Hf & Hw & Hr & Hj) Hres].
  repeat split; assumption.
Qed.

(** C7: when the loop is over, the JSON payload and the list of records
    have the same length, the number of cities collected (coordinates
    present, fetch returned, normals not empty); an iteration appends one
    entry to both lists for a collected city and leaves both alone
    otherwise; and the CSV and JSON files emitted hold these two lists. *)
Theorem payload_and_records_count (cities : CitiesTable) (st : Env) :
  let st' := fst (collect normals_service cities st) in
  List.length (json_payload st') = List.length (records st')
  /\ List.length (records st')
     = collected_count normals_service (rows cities)
                       (fst (reset_accumulators st))
  /\ (forall row s,
        let s' := fst (process_city normals_service row s) in
        if is_collected (outcome normals_service row s)
        then List.length (records s') = S (List.length (records s))
             /\ List.length (json_payload s') = S (List.length (json_payload s))
        else records s' = records s /\ json_payload s' = json_payload s)
  /\ (records st' <> [] ->
      written (fst (emit st'))
      = written st'
        ++ [(OUT_CSV, RecordsCsv (records st'));
            (OUT_JSON, JsonText (json_payload st'));
            (OUT_HTML, HtmlPage (json_payload st') MONTHS
                                COMFORT_MIN_F COMFORT_MAX_F)]).
Proof.
  cbv zeta. rewrite collect_unfold.
  pose proof (for_each_counts normals_service (rows cities)
                (fst (reset_accumulators st))) as H.
  cbv zeta in H. destruct H as [Hr Hj].
  change (records (fst (reset_accumulators st))) with (@nil pyval) in Hr.
  change (json_payload (fst (reset_accumulators st))) with (@nil pyval) in Hj.
  cbn [List.length] in Hr, Hj.
  split; [lia | split; [lia | split]].
  - intros row s. apply process_city_counts.
  - intros Hne. rewrite (proj2 (emit_cases _) Hne). reflexivity.
Qed.

(** C8: an exception raised in the [try] block of a city is caught in the
    loop: the iteration prints the error line, which ends with the
    exception's message, and returns; the loop goes on with the next city
    and returns, so no exception of a city aborts the batch. *)
Theorem city_exceptions_caught
        (row : CityRow) (rest : list CityRow) (st : Env) :
  (forall st' e,
      pd_isna (Lat row) || pd_isna (Lon row) = false ->
      try_city normals_service (City row) (Country row) (Lat row) (Lon row) st
      = (st', Raise e) ->
      process_city normals_service row st
      = (set_stdout st'
           (stdout st' ++ [error_line (City row) (Country row) e]),
         Ok tt)
      /\ exists prefix,
          error_line (City row) (Country row) e
          = (prefix ++ exn_msg e)%string)
  /\ snd (process_city normals_service row st) = Ok tt
  /\ for_each (row :: rest) (process_city normals_service) st
     = for_each rest (process_city normals_service)
                (fst (process_city normals_service row st))
  /\ snd (for_each (row :: rest) (process_city normals_service) st) = Ok tt.
Proof.
  split; [| split; [apply process_city_returns
                   | split; [apply for_each_cons | apply for_each_returns]]].
  intros st' e Hcoords Htry. split.
  - unfold process_city. rewrite Hcoords. unfold try_except. rewrite Htry.
    reflexivity.
  - exists ("Error for " ++ City row ++ ", " ++ Country row ++ ": ")%string.
    unfold error_line. now rewrite !string_app_assoc.
Qed.

(** C9: when no city was collected, [main] prints the failure message and
    returns without writing the CSV, the JSON or the HTML file: the only
    file a run may then have written is the cities table saved by the
    resolver. *)
Theorem no_records_no_artifacts
        (cities : CitiesTable) (st : Env)
        (Hnone :
           records (fst ((cities' <~ resolve_locations geocode_service cities ;;
                          collect normals_service cities') st)) = []) :
  let st1 := fst ((cities' <~ resolve_locations geocode_service cities ;;
                   collect normals_service cities') st) in
  main geocode_service normals_service cities st
  = (set_stdout st1 (stdout st1 ++ [no_data_line]), Ok tt)
  /\ (forall name data,
        In (name, data)
           (written (fst (main geocode_service normals_service cities st))) ->
        In (name, data) (written st) \/ name = DATA_CSV)
  /\ last_written OUT_CSV
       (written (fst (main geocode_service normals_service cities st)))
     = last_written OUT_CSV (written st)
  /\ last_written OUT_JSON
       (written (fst (main geocode_service normals_service cities st)))
     = last_written OUT_JSON (written st)
  /\ last_written OUT_HTML
       (written (fst (main geocode_service normals_service cities st)))
     = last_written OUT_HTML (written st).
Proof.
  cbv zeta. rewrite main_as_emit.
  rewrite (proj1 (emit_cases _) Hnone). cbn [fst written set_stdout].
  split; [reflexivity |].
  destruct (written_before_emit geocode_service normals_service cities st)
    as [Hw | [d Hw]]; cbv zeta in Hw; rewrite Hw.
  - repeat split. intros name data Hin. left. exact Hin.
  - rewrite !last_written_app.
    replace (String.eqb DATA_CSV OUT_CSV) with false by reflexivity.
    replace (String.eqb DATA_CSV OUT_JSON) with false by reflexivity.
    replace (String.eqb DATA_CSV OUT_HTML) with false by reflexivity.
    repeat split.
    intros name data Hin. apply in_app_or in Hin.
    destruct Hin as [Hin | [Heq | []]]; [left; exact Hin | right].
    inversion Heq. reflexivity.
Qed.

End RunClaims.

(** ** The claims on the sample data *)

(** The filtering scenario: 68 degrees and 2 inches pass the default
    filter, 68 degrees fail a maximum of 65, and an unknown precipitation
    passes any cap. *)
Example filtering_scenario :
  Page.shown Sample.comfort Sample.mild_city = true
  /\ Page.shown Sample.cooler Sample.mild_city = false
  /\ Page.shown Sample.dry Sample.unknown_rain_city = true
  /\ Page.update [Sample.mild_city; Sample.unknown_temp_city;
                  Sample.unknown_rain_city] Sample.dry []
     = [Page.marker_of "Jan" Sample.unknown_rain_city].
Proof. repeat split; vm_compute; reflexivity. Qed.

Lemma update_shows_cities_within_filters_witness :
  Page.update [Sample.mild_city; Sample.unknown_temp_city;
               Sample.unknown_rain_city] Sample.comfort []
  = map (Page.marker_of "Jan")
        (filter (Page.shown Sample.comfort)
                [Sample.mild_city; Sample.unknown_temp_city;
                 Sample.unknown_rain_city]).
Proof.
  exact (proj1 (PageFacts.update_shows_cities_within_filters
                  [Sample.mild_city; Sample.unknown_temp_city;
                   Sample.unknown_rain_city] Sample.comfort [])).
Defined.

Lemma null_temperature_never_shown_witness :
  Page.shown Sample.comfort Sample.unknown_temp_city = false
  /\ (forall markers,
         Page.visit Sample.comfort markers Sample.unknown_temp_city = markers)
  /\ (forall before after old,
         Page.update (before ++ Sample.unknown_temp_city :: after)
                     Sample.comfort old
         = Page.update (before ++ after) Sample.comfort old).
Proof.
  apply (PageFacts.null_temperature_never_shown
           Sample.comfort Sample.unknown_temp_city).
  reflexivity.
Defined.

(** Springfield, without coordinates, is skipped, and the run over the
    resolved table writes what the run without Springfield writes. *)
Lemma null_coordinates_excluded_witness :
  process_city Sample.normals_service
    (with_coords Sample.springfield_row (PyFloat nan) (PyFloat nan))
    initial_env
  = (set_stdout initial_env
       ["Skipping Springfield, Nowhereland (no coordinates)"], Ok tt)
  /\ written (fst ((collect Sample.normals_service Sample.resolved_table
                    ;;; emit) initial_env))
     = written (fst ((collect Sample.normals_service
                              Sample.resolved_table_known
                      ;;; emit) initial_env)).
Proof.
  pose proof (null_coordinates_excluded Sample.normals_service
                (with_coords Sample.springfield_row (PyFloat nan) (PyFloat nan))
                eq_refl) as [Hskip Hsame].
  split.
  - exact (Hskip initial_env).
  - exact (proj1 (Hsame ["City"; "Country"; "Lat"; "Lon"]
                        (rows Sample.resolved_table_known) [] initial_env)).
Defined.

(** On the resolved sample table one city is collected: one record, one
    JSON object. *)
Lemma payload_and_records_count_witness :
  let st' := fst (collect Sample.normals_service Sample.resolved_table
                          initial_env) in
  List.length (json_payload st') = List.length (records st')
  /\ List.length (records st')
     = collected_count Sample.normals_service (rows Sample.resolved_table)
                       (fst (reset_accumulators initial_env))
  /\ collected_count Sample.normals_service (rows Sample.resolved_table)
                     (fst (reset_accumulators initial_env)) = 1%nat.
Proof.
  pose proof (payload_and_records_count Sample.normals_service
                Sample.resolved_table initial_env) as H.
  cbv zeta in *. destruct H as (Hlen & Hcount & _).
  split; [exact Hlen | split; [exact Hcount |]].
  vm_compute. reflexivity.
Defined.

Lemma quito_fetch_fails :
  try_city Sample.normals_service "Quito" "Ecuador"
           (PyFloat 0) (PyFloat (-78.5)) initial_env
  = (set_fetched initial_env [(PyFloat 0, PyFloat (-78.5))],
     Raise (Exn "ConnectionError" "timed out")).
Proof. vm_compute. reflexivity. Qed.

(** The failed fetch for Quito is reported and the loop goes on. *)
Lemma city_exceptions_caught_witness :
  process_city Sample.normals_service Sample.quito_row initial_env
  = (set_stdout (set_fetched initial_env [(PyFloat 0, PyFloat (-78.5))])
       ["Error for Quito, Ecuador: timed out"], Ok tt)
  /\ snd (for_each [Sample.quito_row; Sample.lisbon_row]
                   (process_city Sample.normals_service) initial_env)
     = Ok tt.
Proof.
  pose proof (city_exceptions_caught Sample.normals_service Sample.quito_row
                [Sample.lisbon_row] initial_env) as (Hcaught & _ & _ & Hloop).
  split; [| exact Hloop].
  exact (proj1 (Hcaught _ _ eq_refl quito_fetch_fails)).
Defined.

Lemma hopeless_run_collects_nothing :
  records (fst ((cities' <~ resolve_locations Sample.geocoder
                               Sample.hopeless_table ;;
                 collect Sample.normals_service cities') initial_env)) = [].
Proof. vm_compute. reflexivity. Qed.

(** A run in which no city can be collected writes no file. *)
Lemma no_records_no_artifacts_witness :
  last_written OUT_CSV
    (written (fst (main Sample.geocoder Sample.normals_service
                        Sample.hopeless_table initial_env))) = None
  /\ last_written OUT_JSON
       (written (fst (main Sample.geocoder Sample.normals_service
                           Sample.hopeless_table initial_env))) = None
  /\ last_written OUT_HTML
       (written (fst (main Sample.geocoder Sample.normals_service
                           Sample.hopeless_table initial_env))) = None.
Proof.
  pose proof (no_records_no_artifacts Sample.geocoder Sample.normals_service
                Sample.hopeless_table initial_env
                hopeless_run_collects_nothing) as H.
  cbv zeta in H. destruct H as (_ & _ & Hcsv & Hjson & Hhtml).
  repeat split; assumption.
Defined.

(** A run over the resolved sample table: Lisbon is collected and the three
    artifacts are written. *)
Example sample_run :
  let final := fst (main Sample.geocoder Sample.normals_service
                         Sample.resolved_table initial_env) in
  stdout final
  = ["No normals returned for Porto, Lusitania";
     "Error for Quito, Ecuador: timed out";
     "Skipping Springfield, Nowhereland (no coordinates)";
     done_line; tip_line]
  /\ map fst (written final) = [OUT_CSV; OUT_JSON; OUT_HTML]
  /\ fetched final
     = [(PyFloat 38.75, PyFloat (-9.125)); (PyFloat 41.125, PyFloat (-8.5));
        (PyFloat 0, PyFloat (-78.5))]
  /\ json_payload final
     = [PyDict [("city", PyStr "Lisbon"); ("country", PyStr "Portugal");
                ("lat", PyFloat 38.75); ("lon", PyFloat (-9.125));
                ("tavg_f", PyDict (Sample.months_of (PyFloat 68)));
                ("tmin_f", PyDict (Sample.months_of (PyFloat 59)));
                ("tmax_f", PyDict (Sample.months_of (PyFloat 77)));
                ("prcp_in", PyDict (Sample.months_of (PyFloat 5)))]].
Proof. cbv zeta. repeat split; vm_compute; reflexivity. Qed.

(** * Further properties of the code *)

(** ** [geocode_cities] *)

Section ResolverMore.

Variable geocode_service : list string -> string -> option Location.

Lemma spec_resolve_rows_keeps (rs : list CityRow) :
  forall log,
    map City (fst (spec_resolve_rows geocode_service log rs)) = map City rs
    /\ map Country (fst (spec_resolve_rows geocode_service log rs))
       = map Country rs
    /\ exists asked,
        snd (spec_resolve_rows geocode_service log rs) = log ++ asked
        /\ (List.length rs <= List.length asked <= 2 * List.length rs)%nat.
Proof.
  induction rs as [| row rest IH]; intros log.
  - simpl. repeat split. exists []. rewrite app_nil_r. split; [reflexivity |].
    simpl. lia.
  - cbn [spec_resolve_rows].
    assert (Hrow : exists a o q,
               spec_resolve_row geocode_service log row
               = (with_coords row a o, log ++ q)
               /\ (1 <= List.length q <= 2)%nat).
    { unfold spec_resolve_row.
      destruct (geocode_service log _);
        [| destruct (geocode_service _ (City row))];
        do 3 eexists; (split; [try reflexivity | ]).
      - simpl. lia.
      - rewrite <- app_assoc. reflexivity.
      - simpl. lia.
      - rewrite <- app_assoc. reflexivity.
      - simpl. lia. }
    destruct Hrow as (a & o & q & -> & Hq).
    destruct (IH (log ++ q)) as (Hc & Hn & asked & Hlog & Hlen).
    destruct (spec_resolve_rows geocode_service (log ++ q) rest)
      as [rest' log'].
    cbn [fst snd map with_coords City Country] in *.
    rewrite Hc, Hn. repeat split.
    exists (q ++ asked). split; [rewrite Hlog, app_assoc; reflexivity |].
    rewrite length_app. cbn [List.length]. lia.
Qed.

(** X1: [geocode_cities] returns, whatever the geocoder answers, a table
    with the same cities and countries in the same order; it asks the
    geocoder at least once and at most twice for each row, and touches
    nothing else of the state. *)
Theorem geocode_cities_keeps_the_cities (df : CitiesTable) (st : Env) :
  exists df' asked,
    geocode_cities geocode_service df st
    = (set_geocoded st (geocoded st ++ asked), Ok df')
    /\ map City (rows df') = map City (rows df)
    /\ map Country (rows df') = map Country (rows df)
    /\ (List.length (rows df) <= List.length asked
        <= 2 * List.length (rows df))%nat.
Proof.
  rewrite geocode_cities_spec.
  destruct (spec_resolve_rows_keeps (rows df) (geocoded st))
    as (Hc & Hn & asked & Hlog & Hlen).
  eexists. exists asked. rewrite Hlog.
  split; [reflexivity |]. cbn [rows]. repeat split; assumption || lia.
Qed.

Lemma spec_resolve_rows_ignores_coords (la lo : CityRow -> pyval)
      (rs : list CityRow) :
  forall log,
    spec_resolve_rows geocode_service log
      (map (fun r => with_coords r (la r) (lo r)) rs)
    = spec_resolve_rows geocode_service log rs.
Proof.
  induction rs as [| row rest IH]; intros log; [reflexivity |].
  cbn [map spec_resolve_rows].
  assert (Hrow : spec_resolve_row geocode_service log
                   (with_coords row (la row) (lo row))
                 = spec_resolve_row geocode_service log row) by reflexivity.
  rewrite Hrow.
  destruct (spec_resolve_row geocode_service log row) as [row' log'].
  rewrite IH. reflexivity.
Qed.

(** X2: [geocode_cities] does not read the coordinates a table already
    holds: whatever Lat and Lon values the rows carry, the queries made and
    the table returned are the same, so existing coordinates are
    overwritten. *)
Theorem geocode_cities_overwrites_coordinates
        (la lo : CityRow -> pyval) (df : CitiesTable) (st : Env) :
  geocode_cities geocode_service
    {| columns := columns df;
       rows := map (fun r => with_coords r (la r) (lo r)) (rows df) |} st
  = geocode_cities geocode_service df st.
Proof.
  rewrite !geocode_cities_spec. cbn [rows columns].
  rewrite spec_resolve_rows_ignores_coords. reflexivity.
Qed.



Lemma has_column_set_column_same (name : string) (cols : list string) :
  has_column name (set_column name cols) = true.
Proof.
  unfold set_column. destruct (has_column name cols) eqn:H; [exact H |].
  unfold has_column. rewrite existsb_app. cbn. rewrite String.eqb_refl.
  now rewrite orb_true_r.
Qed.

Lemma has_column_set_column_other (name other : string) (cols : list string) :
  has_column name cols = true -> has_column name (set_column other cols) = true.
Proof.
  intros H. unfold set_column. destruct (has_column other cols); [exact H |].
  unfold has_column in *. rewrite existsb_app, H. reflexivity.
Qed.

(** X4: the table [resolve_locations] returns always has the Lat and the
    Lon column, so resolving it again, with any geocoder and in any state,
    makes no query, writes nothing and returns it unchanged: the resolver
    runs at most once on a table. *)
Theorem resolve_locations_idempotent
        (geocode_service' : list string -> string -> option Location)
        (cities cities' : CitiesTable) (st st' st2 : Env)
        (Hrun : resolve_locations geocode_service cities st
                = (st', Ok cities')) :
  has_column "Lat" (columns cities') = true
  /\ has_column "Lon" (columns cities') = true
  /\ resolve_locations geocode_service' cities' st2 = (st2, Ok cities').
Proof.
  assert (Hcols : has_column "Lat" (columns cities') = true
                  /\ has_column "Lon" (columns cities') = true).
  { destruct (resolve_locations_cases geocode_service cities st)
      as [Hboth Hmiss].
    destruct (has_column "Lat" (columns cities)
              && has_column "Lon" (columns cities)) eqn:Hc.
    - rewrite (Hboth eq_refl) in Hrun. inversion Hrun; subst.
      apply andb_true_iff in Hc. exact Hc.
    - cbv zeta in Hmiss. rewrite (Hmiss eq_refl) in Hrun.
      inversion Hrun; subst cities'. cbn [columns]. split.
      + apply has_column_set_column_other, has_column_set_column_same.
      + apply has_column_set_column_same. }
  destruct Hcols as [HLat HLon]. split; [exact HLat | split; [exact HLon |]].
  apply (proj1 (resolve_locations_cases geocode_service' cities' st2)).
  now rewrite HLat, HLon.
Qed.

End ResolverMore.

(** ** [fetch_normals_for_point] *)



(** A column the frame has, read on an index that lacks one of the months,
    makes the comprehension raise [KeyError]. *)
Lemma monthly_dict_missing_label (conv : pyval -> result pyval) (df : Frame)
      (col : string) :
  (forall x, exists v, conv (PyFloat x) = Ok v) ->
  has_column col (frame_columns df) = true ->
  forall indices d,
    Forall (fun i => 1 <= i <= 12) indices ->
    (exists j, In j indices /\ ~ In j (frame_index df)) ->
    exists msg, monthly_dict conv df col indices d = Raise (KeyError msg).
Proof.
  intros Hconv Hc indices.
  induction indices as [| i rest IH]; intros d Hall (j & Hj & Hmiss);
    [destruct Hj |].
  inversion Hall as [| ? ? Hi Hrest]; subst.
  cbn [monthly_dict]. destruct (months_getitem i Hi) as [k ->]. cbn [bind].
  rewrite Hc. unfold frame_loc. rewrite Hc.
  destruct (existsb (Z.eqb i) (frame_index df)) eqn:Hin; cbn [negb bind].
  - destruct (Hconv (frame_at df i col)) as [v ->]. cbn [bind].
    apply IH; [exact Hrest |]. exists j. split; [| exact Hmiss].
    destruct Hj as [<- | Hj]; [| exact Hj]. exfalso. apply Hmiss.
    apply existsb_exists in Hin. destruct Hin as (i' & Hi' & Heq).
    apply Z.eqb_eq in Heq. now subst i'.
  - eexists. reflexivity.
Qed.

Lemma monthly_dict_absent (conv : pyval -> result pyval) (df : Frame)
      (col : string) :
  has_column col (frame_columns df) = false ->
  monthly_dict conv df col (py_range 1 13) []
  = Ok (map (fun m => (m, PyNone)) MONTHS).
Proof.
  intros Hc.
  change (py_range 1 13) with [1; 2; 3; 4; 5; 6; 7; 8; 9; 10; 11; 12].
  cbn [monthly_dict]. rewrite Hc.
  repeat match goal with
         | |- context [list_getitem MONTHS ?i] =>
             let r := eval vm_compute in (list_getitem MONTHS i) in
             change (list_getitem MONTHS i) with r; cbn [bind]
         end.
  reflexivity.
Qed.

Section FetcherMore.

Variable normals_service :
  list (pyval * pyval) -> pyval -> pyval -> result (option Frame).


(** X6: a table of twelve rows or more whose index lacks one of the labels
    [1..12] (a table indexed from 0, say) makes the fetcher raise [KeyError]
    as soon as the table has one of the four columns; the fetch is logged
    all the same. *)
Theorem fetch_raises_on_missing_month
        (lat lon : pyval) (st : Env) (df : Frame) (j : Z)
        (Hsource : normals_service (fetched st) lat lon = Ok (Some df))
        (Hrows : (12 <= List.length (frame_index df))%nat)
        (Hj : 1 <= j <= 12)
        (Hmissing : ~ In j (frame_index df))
        (Hcolumn : has_column "tavg" (frame_columns df)
                   || has_column "tmin" (frame_columns df)
                   || has_column "tmax" (frame_columns df)
                   || has_column "prcp" (frame_columns df) = true) :
  exists msg,
    fetch_normals_for_point normals_service lat lon st
    = (set_fetched st (fetched st ++ [(lat, lon)]), Raise (KeyError msg)).
Proof.
  assert (Hall : Forall (fun i => 1 <= i <= 12) (py_range 1 13)).
  { change (py_range 1 13) with [1; 2; 3; 4; 5; 6; 7; 8; 9; 10; 11; 12].
    repeat (constructor; [lia |]). constructor. }
  assert (Hex : exists j', In j' (py_range 1 13) /\ ~ In j' (frame_index df)).
  { exists j. split; [| exact Hmissing].
    change (py_range 1 13) with [1; 2; 3; 4; 5; 6; 7; 8; 9; 10; 11; 12].
    simpl. lia. }
  assert (Hne : frame_empty df = false).
  { unfold frame_empty. destruct (frame_index df); [simpl in Hrows; lia |].
    destruct (frame_columns df); [discriminate Hcolumn | reflexivity]. }
  unfold fetch_normals_for_point, bindM, normals_fetch. rewrite Hsource, Hne.
  replace (Z.of_nat (List.length (frame_index df)) <? 12) with false
    by (symmetry; apply Z.ltb_ge; lia).
  cbn [orb]. unfold lift, ret.
  destruct (has_column "tavg" (frame_columns df)) eqn:Ca.
  { destruct (monthly_dict_missing_label c_to_f df "tavg" c_to_f_cell_returns
                Ca (py_range 1 13) [] Hall Hex) as [msg ->].
    exists msg. reflexivity. }
  rewrite (monthly_dict_absent c_to_f df "tavg" Ca).
  destruct (has_column "tmin" (frame_columns df)) eqn:Ci.
  { destruct (monthly_dict_missing_label c_to_f df "tmin" c_to_f_cell_returns
                Ci (py_range 1 13) [] Hall Hex) as [msg ->].
    exists msg. reflexivity. }
  rewrite (monthly_dict_absent c_to_f df "tmin" Ci).
  destruct (has_column "tmax" (frame_columns df)) eqn:Cx.
  { destruct (monthly_dict_missing_label c_to_f df "tmax" c_to_f_cell_returns
                Cx (py_range 1 13) [] Hall Hex) as [msg ->].
    exists msg. reflexivity. }
  rewrite (monthly_dict_absent c_to_f df "tmax" Cx).
  destruct (has_column "prcp" (frame_columns df)) eqn:Cp;
    [| discriminate Hcolumn].
  destruct (monthly_dict_missing_label mm_to_in df "prcp" mm_to_in_cell_returns
              Cp (py_range 1 13) [] Hall Hex) as [msg ->].
  exists msg. reflexivity.
Qed.

End FetcherMore.

(** ** The records and the JSON objects of [main] *)

Lemma dict_get_set_same (d : list (string * pyval)) (k : string) (v : pyval) :
  dict_get (dict_set d k v) k = Some v.
Proof.
  induction d as [| [k' v'] rest IH]; cbn [dict_set dict_get].
  - now rewrite String.eqb_refl.
  - destruct (String.eqb k' k) eqn:Hk; cbn [dict_get].
    + now rewrite String.eqb_refl.
    + now rewrite Hk.
Qed.

Lemma dict_get_set_other (d : list (string * pyval)) (k k' : string)
      (v : pyval) :
  k <> k' -> dict_get (dict_set d k v) k' = dict_get d k'.
Proof.
  intros Hne. induction d as [| [k0 v0] rest IH]; cbn [dict_set dict_get].
  - destruct (String.eqb k k') eqn:Hk; [| reflexivity].
    apply String.eqb_eq in Hk. contradiction.
  - destruct (String.eqb k0 k) eqn:Hk; cbn [dict_get].
    + apply String.eqb_eq in Hk. subst k0.
      destruct (String.eqb k k') eqn:Hk'; [| reflexivity].
      apply String.eqb_eq in Hk'. contradiction.
    + rewrite IH. reflexivity.
Qed.

Lemma dict_keys_set_new (d : list (string * pyval)) (k : string) (v : pyval) :
  ~ In k (dict_keys d) -> dict_keys (dict_set d k v) = dict_keys d ++ [k].
Proof.
  induction d as [| [k' v'] rest IH]; cbn; intros Hnew; [reflexivity |].
  destruct (String.eqb k' k) eqn:Hk.
  - apply String.eqb_eq in Hk. exfalso. apply Hnew. left. exact Hk.
  - cbn. unfold dict_keys in IH. rewrite IH; [reflexivity |].
    intros Hin. apply Hnew. right. exact Hin.
Qed.

Lemma distinct_NoDup (l : list string) : distinct l = true -> NoDup l.
Proof.
  induction l as [| x rest IH]; cbn [distinct]; intros H; [constructor |].
  apply andb_true_iff in H. destruct H as [Hx Hrest].
  constructor; [| apply IH; exact Hrest].
  intros Hin. apply negb_true_iff in Hx.
  assert (Htrue : existsb (String.eqb x) rest = true).
  { apply existsb_exists. exists x. split; [exact Hin | apply String.eqb_refl]. }
  congruence.
Qed.

(** What the loop over the months [ms] adds to a record whose keys are not
    among the month columns. *)
Lemma fill_out_row_adds (normals : pyval) (ms : list string) :
  forall row row',
    NoDup (dict_keys row ++ flat_map month_columns ms) ->
    fill_out_row normals ms row = Ok row' ->
    dict_keys row' = dict_keys row ++ flat_map month_columns ms
    /\ (forall k, In k (dict_keys row) -> dict_get row' k = dict_get row k)
    /\ (forall m, In m ms ->
          exists a b x p,
            (normals_at normals "tavg_f" m = Ok a
             /\ dict_get row' (m ++ "_tavg_f")%string = Some a)
            /\ (normals_at normals "tmin_f" m = Ok b
                /\ dict_get row' (m ++ "_tmin_f")%string = Some b)
            /\ (normals_at normals "tmax_f" m = Ok x
                /\ dict_get row' (m ++ "_tmax_f")%string = Some x)
            /\ (normals_at normals "prcp_in" m = Ok p
                /\ dict_get row' (m ++ "_prcp_in")%string = Some p)).
Proof.
  induction ms as [| m rest IH]; intros row row' Hnd H.
  - cbn in H. inversion H; subst row'. cbn [flat_map]. rewrite app_nil_r.
    split; [reflexivity | split; [intros; reflexivity | intros m []]].
  - cbn [fill_out_row] in H.
    destruct (normals_at normals "tavg_f" m) as [a |] eqn:Ea; [| discriminate].
    destruct (normals_at normals "tmin_f" m) as [b |] eqn:Eb; [| discriminate].
    destruct (normals_at normals "tmax_f" m) as [x |] eqn:Ex; [| discriminate].
    destruct (normals_at normals "prcp_in" m) as [p |] eqn:Ep; [| discriminate].
    cbn [bind] in H.
    set (ka := (m ++ "_tavg_f")%string) in *.
    set (kb := (m ++ "_tmin_f")%string) in *.
    set (kx := (m ++ "_tmax_f")%string) in *.
    set (kp := (m ++ "_prcp_in")%string) in *.
    set (r1 := dict_set row ka a) in *.
    set (r2 := dict_set r1 kb b) in *.
    set (r3 := dict_set r2 kx x) in *.
    set (r4 := dict_set r3 kp p) in *.
    cbn [flat_map] in Hnd.
    change (month_columns m) with [ka; kb; kx; kp] in Hnd.
    (* the four new keys are fresh and pairwise different *)
    assert (Hfresh : NoDup (dict_keys row ++ [ka; kb; kx; kp])).
    { rewrite app_assoc in Hnd. apply NoDup_app_remove_r in Hnd. exact Hnd. }
    assert (Hka : ~ In ka (dict_keys row)).
    { intros Hin. apply NoDup_remove_2 in Hfresh. apply Hfresh.
      apply in_or_app. left. exact Hin. }
    assert (K1 : dict_keys r1 = dict_keys row ++ [ka])
      by (apply dict_keys_set_new; exact Hka).
    assert (Hnd1 : NoDup ((dict_keys row ++ [ka]) ++ [kb; kx; kp]))
      by (rewrite <- app_assoc; exact Hfresh).
    assert (Hkb : ~ In kb (dict_keys r1)).
    { rewrite K1. intros Hin. apply NoDup_remove_2 in Hnd1. apply Hnd1.
      apply in_or_app. left. exact Hin. }
    assert (K2 : dict_keys r2 = (dict_keys row ++ [ka]) ++ [kb])
      by (rewrite <- K1; apply dict_keys_set_new; exact Hkb).
    assert (Hnd2 : NoDup (((dict_keys row ++ [ka]) ++ [kb]) ++ [kx; kp]))
      by (rewrite <- app_assoc; exact Hnd1).
    assert (Hkx : ~ In kx (dict_keys r2)).
    { rewrite K2. intros Hin. apply NoDup_remove_2 in Hnd2. apply Hnd2.
      apply in_or_app. left. exact Hin. }
    assert (K3 : dict_keys r3 = ((dict_keys row ++ [ka]) ++ [kb]) ++ [kx])
      by (rewrite <- K2; apply dict_keys_set_new; exact Hkx).
    assert (Hnd3 : NoDup ((((dict_keys row ++ [ka]) ++ [kb]) ++ [kx]) ++ [kp]))
      by (rewrite <- app_assoc; exact Hnd2).
    assert (Hkp : ~ In kp (dict_keys r3)).
    { rewrite K3. intros Hin. apply NoDup_remove_2 in Hnd3. apply Hnd3.
      apply in_or_app. left. exact Hin. }
    assert (K4 : dict_keys r4 = dict_keys row ++ [ka; kb; kx; kp]).
    { unfold r4. rewrite (dict_keys_set_new r3 kp p Hkp), K3.
      rewrite <- !app_assoc. reflexivity. }
    assert (Hnd4 : NoDup (dict_keys r4 ++ flat_map month_columns rest)).
    { rewrite K4, <- app_assoc. exact Hnd. }
    destruct (IH r4 row' Hnd4 H) as (Hkeys & Hold & Hnew).
    assert (Hin4 : forall k, In k (dict_keys row ++ [ka; kb; kx; kp]) ->
                             dict_get row' k = dict_get r4 k).
    { intros k Hk. apply Hold. rewrite K4. exact Hk. }
    assert (Hne : forall k k', In k (dict_keys r3) -> ~ In k' (dict_keys r3) ->
                               k' <> k) by (intros k k' Hk Hk' ->; auto).
    split; [| split].
    + rewrite Hkeys, K4, <- app_assoc. reflexivity.
    + intros k Hk. rewrite Hin4 by (apply in_or_app; left; exact Hk).
      unfold r4, r3, r2, r1.
      rewrite !dict_get_set_other; [reflexivity | | | |];
        intros ->; [apply Hka | apply Hkb; rewrite K1
                    | apply Hkx; rewrite K2 | apply Hkp; rewrite K3];
        repeat (apply in_or_app; left); exact Hk.
    + intros m' [<- | Hm'].
      * exists a, b, x, p.
        split; [split; [exact Ea |]
               | split; [split; [exact Eb |]
                        | split; [split; [exact Ex |] | split; [exact Ep |]]]];
          (rewrite Hin4 by (apply in_or_app; right; simpl; tauto)).
        -- unfold r4, r3, r2.
           rewrite !dict_get_set_other; [apply dict_get_set_same | | |];
             intros Heq.
           ++ apply Hkb. rewrite Heq, K1. apply in_or_app. right. now left.
           ++ apply Hkx. rewrite Heq, K2. apply in_or_app. left.
              apply in_or_app. right. now left.
           ++ apply Hkp. rewrite Heq, K3. apply in_or_app. left.
              apply in_or_app. left. apply in_or_app. right. now left.
        -- unfold r4, r3.
           rewrite !dict_get_set_other; [apply dict_get_set_same | |];
             intros Heq.
           ++ apply Hkx. rewrite Heq, K2. apply in_or_app. right. now left.
           ++ apply Hkp. rewrite Heq, K3. apply in_or_app. left.
              apply in_or_app. right. now left.
        -- unfold r4.
           rewrite !dict_get_set_other; [apply dict_get_set_same |].
           intros Heq. apply Hkp. rewrite Heq, K3. apply in_or_app. right.
           now left.
        -- apply dict_get_set_same.
      * apply Hnew. exact Hm'.
Qed.

Lemma record_columns_distinct : NoDup record_columns.
Proof. apply distinct_NoDup. vm_compute. reflexivity. Qed.

(** The record and the JSON object built from non-empty normals [fields]
    for [row]. *)
Lemma collected_entry_facts (row : CityRow) (fields d : list (string * pyval)) :
  fill_out_row (PyDict fields) MONTHS
               [("City", PyStr (City row)); ("Country", PyStr (Country row));
                ("Lat", Lat row); ("Lon", Lon row)] = Ok d ->
  let o := PyDict ([("city", PyStr (City row));
                    ("country", PyStr (Country row));
                    ("lat", Lat row); ("lon", Lon row)] ++ fields) in
  (forall field, In field ["tavg_f"; "tmin_f"; "tmax_f"; "prcp_in"] ->
                 py_getitem o field = py_getitem (PyDict fields) field)
  /\ record_names_city row (PyDict d)
  /\ object_names_city row o
  /\ has_record_columns (PyDict d)
  /\ (forall m, In m MONTHS ->
        exists a b c p,
          (py_getitem (PyDict d) (m ++ "_tavg_f")%string = Ok a
           /\ normals_at (PyDict fields) "tavg_f" m = Ok a)
          /\ (py_getitem (PyDict d) (m ++ "_tmin_f")%string = Ok b
              /\ normals_at (PyDict fields) "tmin_f" m = Ok b)
          /\ (py_getitem (PyDict d) (m ++ "_tmax_f")%string = Ok c
              /\ normals_at (PyDict fields) "tmax_f" m = Ok c)
          /\ (py_getitem (PyDict d) (m ++ "_prcp_in")%string = Ok p
              /\ normals_at (PyDict fields) "prcp_in" m = Ok p)).
Proof.
  intros Hfill o.
  destruct (fill_out_row_adds (PyDict fields) MONTHS
              [("City", PyStr (City row)); ("Country", PyStr (Country row));
               ("Lat", Lat row); ("Lon", Lon row)] d
              record_columns_distinct Hfill) as (Hkeys & Hold & Hnew).
  split; [| split; [| split; [| split]]].
  - intros field Hf. subst o.
    destruct Hf as [<- | [<- | [<- | [<- | []]]]]; reflexivity.
  - unfold record_names_city, py_getitem.
    rewrite !Hold by (cbn; tauto). repeat split.
  - subst o. repeat split.
  - exists d. split; [reflexivity | exact Hkeys].
  - intros m Hm. destruct (Hnew m Hm) as (a & b & c & p & Ha & Hb & Hc & Hp).
    exists a, b, c, p. unfold py_getitem.
    destruct Ha as [Ha ->], Hb as [Hb ->], Hc as [Hc ->], Hp as [Hp ->].
    repeat split; assumption.
Qed.

Section RecordFacts.

Variable normals_service :
  list (pyval * pyval) -> pyval -> pyval -> result (option Frame).

(** The iteration for a collected city, with what it appends. *)
Lemma process_city_collected (row : CityRow) (st : Env) :
  outcome normals_service row st = Collected ->
  exists fields d,
    fill_out_row (PyDict fields) MONTHS
                 [("City", PyStr (City row)); ("Country", PyStr (Country row));
                  ("Lat", Lat row); ("Lon", Lon row)] = Ok d
    /\ process_city normals_service row st
       = ({| stdout := stdout st; geocoded := geocoded st;
             fetched := fetched st ++ [(Lat row, Lon row)];
             written := written st;
             records := records st ++ [PyDict d];
             json_payload :=
               json_payload st
               ++ [PyDict ([("city", PyStr (City row));
                            ("country", PyStr (Country row));
                            ("lat", Lat row); ("lon", Lon row)] ++ fields)] |},
          Ok tt).
Proof.
  unfold outcome, process_city.
  destruct (pd_isna (Lat row) || pd_isna (Lon row)); [discriminate |].
  unfold try_except, try_city, bindM.
  pose proof (fetch_state normals_service (Lat row) (Lon row) st) as Hst.
  destruct (fetch_normals_for_point normals_service (Lat row) (Lon row) st)
    as [st' [v | e]] eqn:Hf; cbn [fst] in Hst; subst st'; [| discriminate].
  destruct (py_truthy v) eqn:Htruthy; [intros _ | discriminate].
  cbn [negb].
  destruct (fetch_result_shape normals_service _ _ _ _ _ Hf)
    as [Hv | (df & tavg & tmin & tmax & prcp & _ & _ & _ & Ha & Hi & Hx & Hp & Hv)];
    subst v; [discriminate Htruthy |].
  destruct (monthly_dict_shape _ _ _ _ Ha) as [Ka _].
  destruct (monthly_dict_shape _ _ _ _ Hi) as [Ki _].
  destruct (monthly_dict_shape _ _ _ _ Hx) as [Kx _].
  destruct (monthly_dict_shape _ _ _ _ Hp) as [Kp _].
  match goal with
  | |- context [fill_out_row ?n ?ms ?r] =>
      destruct (fill_out_row_total n ms) with (out_row := r) as [d Hd]
  end.
  { intros field m Hfield Hm.
    destruct Hfield as [<- | [<- | [<- | [<- | []]]]];
      eapply normals_at_ok; try reflexivity;
      first [rewrite Ka | rewrite Ki | rewrite Kx | rewrite Kp]; exact Hm. }
  eexists. exists d. split; [exact Hd |].
  rewrite Hd. unfold lift, records_append, json_payload_append. cbn.
  reflexivity.
Qed.

End RecordFacts.

Section RecordTheorems.

Variable geocode_service : list string -> string -> option Location.
Variable normals_service :
  list (pyval * pyval) -> pyval -> pyval -> result (option Frame).

(** What the loop appends to the two lists, city by city. *)
Lemma for_each_emits (rs : list CityRow) :
  forall st,
    let st' := fst (for_each rs (process_city normals_service) st) in
    exists recs objs,
      records st' = records st ++ recs
      /\ json_payload st' = json_payload st ++ objs
      /\ Forall2 record_names_city (collected_rows normals_service rs st) recs
      /\ Forall2 object_names_city (collected_rows normals_service rs st) objs
      /\ Forall2 record_matches_object recs objs
      /\ Forall has_record_columns recs.
Proof.
  induction rs as [| row rest IH]; intros st; cbv zeta.
  - exists [], []. cbn. rewrite !app_nil_r. repeat split; constructor.
  - rewrite for_each_cons. cbn [collected_rows].
    specialize (IH (fst (process_city normals_service row st))).
    cbv zeta in IH.
    destruct IH as (recs & objs & Hr & Hj & Hnr & Hno & Hm & Hc).
    destruct (outcome normals_service row st) eqn:Ho.
    1-3: pose proof (process_city_counts normals_service row st) as Hk;
      cbv zeta in Hk; rewrite Ho in Hk; cbn [is_collected] in Hk;
      destruct Hk as [Hk1 Hk2]; rewrite Hk1 in Hr; rewrite Hk2 in Hj;
      exists recs, objs; cbn [is_collected app]; repeat split; assumption.
    destruct (process_city_collected normals_service row st Ho)
      as (fields & d & Hfill & Hrun).
    destruct (collected_entry_facts row fields d Hfill)
      as (Hfields & Hrec & Hobj & Hcols & Hvals).
    cbv zeta in Hfields, Hobj.
    rewrite Hrun in Hr, Hj, Hnr, Hno. rewrite Hrun.
    cbn [fst records json_payload is_collected] in Hr, Hj, Hnr, Hno |- *.
    rewrite Hr, Hj.
    eexists (PyDict d :: recs). eexists (_ :: objs).
    rewrite <- !app_assoc.
    split; [reflexivity | split; [reflexivity |]].
    split; [constructor; assumption |].
    split; [constructor; assumption |].
    split; [| constructor; assumption].
    constructor; [| exact Hm].
    intros m Hmonth.
    destruct (Hvals m Hmonth) as (a & b & c & p & Ha & Hb & Hc' & Hp).
    exists a, b, c, p.
    rewrite !Hfields by (cbn; tauto).
    unfold normals_at in Ha, Hb, Hc', Hp.
    repeat split; tauto.
Qed.

Lemma collected_rows_from_input (rs : list CityRow) :
  forall st row,
    In row (collected_rows normals_service rs st) ->
    In row rs /\ has_coords row = true.
Proof.
  induction rs as [| r rest IH]; intros st row; cbn [collected_rows];
    [intros [] |].
  intros Hin. apply in_app_or in Hin. destruct Hin as [Hin | Hin].
  - destruct (outcome normals_service r st) eqn:Ho; cbn in Hin;
      try contradiction.
    destruct Hin as [<- | []]. split; [left; reflexivity |].
    unfold outcome in Ho. unfold has_coords.
    destruct (pd_isna (Lat r) || pd_isna (Lon r)); [discriminate | reflexivity].
  - destruct (IH _ _ Hin) as [H1 H2]. split; [right; exact H1 | exact H2].
Qed.

(** The same after [collect], whose two lists start empty. *)
Lemma collect_emits (cities : CitiesTable) (st : Env) :
  let st' := fst (collect normals_service cities st) in
  let collected :=
    collected_rows normals_service (rows cities)
                   (fst (reset_accumulators st)) in
  Forall2 record_names_city collected (records st')
  /\ Forall2 object_names_city collected (json_payload st')
  /\ Forall2 record_matches_object (records st') (json_payload st')
  /\ Forall has_record_columns (records st').
Proof.
  cbv zeta. rewrite collect_unfold.
  destruct (for_each_emits (rows cities) (fst (reset_accumulators st)))
    as (recs & objs & Hr & Hj & Hnr & Hno & Hm & Hc).
  cbv zeta in Hr, Hj.
  change (records (fst (reset_accumulators st)) ++ recs) with recs in Hr.
  change (json_payload (fst (reset_accumulators st)) ++ objs) with objs in Hj.
  rewrite Hr, Hj. repeat split; assumption.
Qed.

(** X7: the records and the JSON objects a run collects name, one for one
    and in input order, the rows that were collected: the i-th record has
    the City, Country, Lat and Lon of the i-th collected row, the i-th JSON
    object its city, country, lat and lon; and a collected row is a row of
    the table that has both coordinates. *)
Theorem outputs_name_the_collected_rows (cities : CitiesTable) (st : Env) :
  let st' := fst (collect normals_service cities st) in
  let collected :=
    collected_rows normals_service (rows cities)
                   (fst (reset_accumulators st)) in
  Forall2 record_names_city collected (records st')
  /\ Forall2 object_names_city collected (json_payload st')
  /\ (forall row, In row collected ->
                  In row (rows cities) /\ has_coords row = true).
Proof.
  cbv zeta.
  destruct (collect_emits cities st) as (Hnr & Hno & _ & _). cbv zeta in *.
  split; [exact Hnr | split; [exact Hno |]].
  intros row. apply collected_rows_from_input.
Qed.

(** X8: every record of a run is a dict with the same 52 columns, in the
    order City, Country, Lat, Lon followed, month by month from Jan to Dec,
    by the average, minimum and maximum temperature and the precipitation:
    the columns of the CSV file do not depend on the city. *)
Theorem records_share_the_columns (cities : CitiesTable) (st : Env) :
  Forall has_record_columns (records (fst (collect normals_service cities st)))
  /\ List.length record_columns = 52%nat
  /\ firstn 8 record_columns
     = ["City"; "Country"; "Lat"; "Lon";
        "Jan_tavg_f"; "Jan_tmin_f"; "Jan_tmax_f"; "Jan_prcp_in"]
  /\ skipn 48 record_columns
     = ["Dec_tavg_f"; "Dec_tmin_f"; "Dec_tmax_f"; "Dec_prcp_in"].
Proof.
  split; [| repeat split; vm_compute; reflexivity].
  destruct (collect_emits cities st) as (_ & _ & _ & Hc). exact Hc.
Qed.

(** X9: the CSV rows and the JSON objects of a run agree: the i-th record
    and the i-th JSON object hold, for every month [m] and each of the four
    fields, the same value, [record[m_field] = object[field][m]]. *)
Theorem records_agree_with_payload (cities : CitiesTable) (st : Env) :
  let st' := fst (collect normals_service cities st) in
  Forall2 record_matches_object (records st') (json_payload st').
Proof.
  destruct (collect_emits cities st) as (_ & _ & Hm & _). exact Hm.
Qed.

Lemma process_city_accounts (row : CityRow) (st : Env) :
  let st' := fst (process_city normals_service row st) in
  (List.length (stdout st') + List.length (records st')
   = S (List.length (stdout st) + List.length (records st)))%nat
  /\ fetched st'
     = fetched st ++ (if has_coords row then [(Lat row, Lon row)] else []).
Proof.
  pose proof (process_city_cases normals_service row st) as H. cbv zeta in *.
  unfold has_coords. unfold outcome in H.
  destruct (pd_isna (Lat row) || pd_isna (Lon row)); cbn [negb].
  - rewrite H. cbn. rewrite length_app, app_nil_r. cbn. split; [lia | reflexivity].
  - destruct (fetch_normals_for_point normals_service (Lat row) (Lon row) st)
      as [s1 [v | e]].
    + destruct (py_truthy v).
      * destruct H as (out_row & obj & ->). cbn. rewrite length_app. cbn.
        split; [lia | reflexivity].
      * rewrite H. cbn. rewrite length_app. cbn. split; [lia | reflexivity].
    + rewrite H. cbn. rewrite length_app. cbn. split; [lia | reflexivity].
Qed.

Lemma for_each_accounts (rs : list CityRow) :
  forall st,
    let st' := fst (for_each rs (process_city normals_service) st) in
    (List.length (stdout st') + List.length (records st')
     = List.length (stdout st) + List.length (records st) + List.length rs)%nat
    /\ fetched st'
       = fetched st ++ map (fun r => (Lat r, Lon r)) (filter has_coords rs).
Proof.
  induction rs as [| row rest IH]; intros st; cbv zeta.
  - cbn. rewrite app_nil_r. split; [lia | reflexivity].
  - rewrite for_each_cons.
    destruct (IH (fst (process_city normals_service row st))) as [Hn Hf].
    destruct (process_city_accounts row st) as [Hn1 Hf1].
    cbv zeta in *. rewrite Hf, Hf1. split; [cbn [List.length]; lia |].
    cbn [filter]. destruct (has_coords row); cbn [map app].
    + rewrite <- app_assoc. reflexivity.
    + rewrite app_nil_r. reflexivity.
Qed.

(** X10: the loop accounts for every row: each city either adds one record
    or prints exactly one line (skipped, no normals, or error), so the
    number of lines printed by the loop plus the number of records is the
    number of rows of the table. *)
Theorem every_city_is_reported_or_collected (cities : CitiesTable) (st : Env) :
  let st' := fst (collect normals_service cities st) in
  (List.length (stdout st') + List.length (records st')
   = List.length (stdout st) + List.length (rows cities))%nat.
Proof.
  cbv zeta. rewrite collect_unfold.
  destruct (for_each_accounts (rows cities) (fst (reset_accumulators st)))
    as [Hn _].
  cbv zeta in Hn. rewrite Hn. cbn. lia.
Qed.

(** X11: the loop queries the climate source once for each row that has
    both coordinates, in input order and with that row's coordinates, and
    never for another point: a failed or empty fetch is not retried. *)
Theorem one_fetch_per_located_city (cities : CitiesTable) (st : Env) :
  fetched (fst (collect normals_service cities st))
  = fetched st
    ++ map (fun r => (Lat r, Lon r)) (filter has_coords (rows cities)).
Proof.
  rewrite collect_unfold.
  destruct (for_each_accounts (rows cities) (fst (reset_accumulators st)))
    as [_ Hf].
  cbv zeta in Hf. rewrite Hf. reflexivity.
Qed.

(** X12: [main] returns normally for every table, whatever the geocoder
    answers and whatever the climate source returns or raises; it ends by
    printing either the failure message or the two closing lines. *)
Theorem main_returns (cities : CitiesTable) (st : Env) :
  snd (main geocode_service normals_service cities st) = Ok tt
  /\ exists lines,
      stdout (fst (main geocode_service normals_service cities st))
      = lines ++ [no_data_line]
      \/ stdout (fst (main geocode_service normals_service cities st))
         = lines ++ [done_line; tip_line].
Proof.
  rewrite main_as_emit.
  set (st1 := fst ((cities' <~ resolve_locations geocode_service cities ;;
                    collect normals_service cities') st)).
  destruct (emit_cases st1) as [Hnone Hsome].
  destruct (records st1) as [| r rs] eqn:Hr.
  - rewrite (Hnone eq_refl). split; [reflexivity |].
    exists (stdout st1). left. reflexivity.
  - rewrite Hsome by discriminate. split; [reflexivity |].
    exists (stdout st1). right. reflexivity.
Qed.

End RecordTheorems.

(** ** The filter on empty inputs *)

Lemma is_nan_Prim2SF (x : float) :
  PrimFloat.is_nan x = true -> Prim2SF x = S754_nan.
Proof. intros H. unfold Prim2SF. now rewrite H. Qed.

Lemma leb_nan_l (x y : float) :
  PrimFloat.is_nan x = true -> (x <=? y)%float = false.
Proof.
  intros H. rewrite leb_spec, (is_nan_Prim2SF x H). reflexivity.
Qed.

Lemma leb_nan_r (x y : float) :
  PrimFloat.is_nan y = true -> (x <=? y)%float = false.
Proof.
  intros H. rewrite leb_spec, (is_nan_Prim2SF y H).
  destruct (Prim2SF x); reflexivity.
Qed.

Module PageMore.
Import Page.

(** X13: when the minimum or the maximum temperature read from the toolbar
    is NaN (an input box left empty), [update] shows no marker at all,
    whatever the cities and the other inputs. *)
Theorem update_shows_nothing_without_bounds
        (cityData : list CityRecord) (ctl : Controls) (old : list Marker)
        (Hnan : PrimFloat.is_nan (minTemp ctl) = true
                \/ PrimFloat.is_nan (maxTemp ctl) = true) :
  update cityData ctl old = [].
Proof.
  rewrite PageFacts.update_filter.
  assert (Hnone : forall c, shown ctl c = false).
  { intros c. destruct (shown ctl c) eqn:Hs; [| reflexivity].
    apply PageFacts.shown_spec in Hs. destruct Hs as [(t & _ & Hlo & Hhi) _].
    destruct Hnan as [H | H].
    - rewrite (leb_nan_l _ t H) in Hlo. discriminate.
    - rewrite (leb_nan_r t _ H) in Hhi. discriminate. }
  induction cityData as [| c rest IH]; [reflexivity |].
  cbn [filter]. rewrite Hnone. exact IH.
Qed.

(** X14: when the precipitation cap read from the toolbar is NaN, a city is
    shown if and only if its temperature is within the bounds and its
    precipitation for the month is unknown: every city with a known
    precipitation is hidden. *)
Theorem update_without_cap_shows_unknown_rain_only
        (ctl : Controls) (c : CityRecord)
        (Hnan : PrimFloat.is_nan (maxPrcp ctl) = true) :
  shown ctl c = true <->
  (exists t, prop (tavg_f c) (month ctl) = JsNum t
             /\ (minTemp ctl <=? t)%float = true
             /\ (t <=? maxTemp ctl)%float = true)
  /\ eq_null (prop (prcp_in c) (month ctl)) = true.
Proof.
  rewrite PageFacts.shown_spec. split.
  - intros [Ht [Hp | (p & _ & Hle)]]; [split; assumption |].
    rewrite (leb_nan_r p _ Hnan) in Hle. discriminate.
  - intros [Ht Hp]. split; [exact Ht | left; exact Hp].
Qed.

End PageMore.

Lemma update_shows_nothing_without_bounds_witness :
  Page.update [Sample.mild_city; Sample.unknown_rain_city]
              MoreSamples.no_minimum [] = [].
Proof.
  apply PageMore.update_shows_nothing_without_bounds.
  left. reflexivity.
Defined.

Lemma update_without_cap_shows_unknown_rain_only_witness :
  Page.shown MoreSamples.no_cap Sample.unknown_rain_city = true
  /\ Page.shown MoreSamples.no_cap Sample.mild_city = false.
Proof.
  pose proof (PageMore.update_without_cap_shows_unknown_rain_only
                MoreSamples.no_cap Sample.unknown_rain_city eq_refl) as Hu.
  pose proof (PageMore.update_without_cap_shows_unknown_rain_only
                MoreSamples.no_cap Sample.mild_city eq_refl) as Hm.
  split.
  - apply Hu. split; [| reflexivity].
    exists 68%float. repeat split.
  - destruct (Page.shown MoreSamples.no_cap Sample.mild_city); [| reflexivity].
    destruct (proj1 Hm eq_refl) as [_ Hnull]. discriminate Hnull.
Defined.

(** ** The conversions never produce NaN *)

Lemma shr_1_nonneg (mrs : shr_record) :
  0 <= shr_m mrs -> 0 <= shr_m (shr_1 mrs).
Proof.
  destruct mrs as [m r s]. cbn [shr_m].
  destruct m as [| p | p]; [| destruct p | lia]; cbn; lia.
Qed.

Lemma iter_pos_keeps {A : Type} (P : A -> Prop) (f : A -> A) :
  (forall x, P x -> P (f x)) ->
  forall n x, P x -> P (SpecFloat.iter_pos f n x).
Proof.
  intros Hf n. induction n as [n IH | n IH |]; intros x Hx; cbn.
  - apply IH, IH, Hf, Hx.
  - apply IH, IH, Hx.
  - apply Hf, Hx.
Qed.

Lemma shr_fexp_nonneg (m e : Z) (l : location) :
  0 <= m -> 0 <= shr_m (fst (shr_fexp prec emax m e l)).
Proof.
  intros Hm. unfold shr_fexp, shr.
  assert (H0 : 0 <= shr_m (shr_record_of_loc m l))
    by (destruct l as [| []]; exact Hm).
  destruct (fexp prec emax (Zdigits2 m + e) - e) as [| p | p];
    cbn [fst]; try exact H0.
  apply (iter_pos_keeps (fun mrs => 0 <= shr_m mrs)); [| exact H0].
  exact shr_1_nonneg.
Qed.

Lemma round_nearest_even_nonneg (m : Z) (l : location) :
  0 <= m -> 0 <= round_nearest_even m l.
Proof.
  intros Hm. unfold round_nearest_even.
  destruct l as [| []]; try lia. destruct (Z.even m); lia.
Qed.

(** Rounding a non-negative mantissa gives a zero, a finite number or an
    infinity. *)
Lemma binary_round_aux_not_nan (s : bool) (m e : Z) (l : location) :
  0 <= m -> binary_round_aux prec emax s m e l <> S754_nan.
Proof.
  intros Hm. unfold binary_round_aux.
  pose proof (shr_fexp_nonneg m e l Hm) as H1.
  destruct (shr_fexp prec emax m e l) as [mrs' e']. cbn [fst] in H1.
  pose proof (shr_fexp_nonneg
                (round_nearest_even (shr_m mrs') (loc_of_shr_record mrs'))
                e' loc_Exact
                (round_nearest_even_nonneg _ _ H1)) as H2.
  destruct (shr_fexp prec emax _ e' loc_Exact) as [mrs'' e'']. cbn [fst] in H2.
  destruct (shr_m mrs'') as [| p | p]; [discriminate | | lia].
  destruct (e'' <=? emax - prec); discriminate.
Qed.

Lemma binary_round_not_nan (s : bool) (m : positive) (e : Z) :
  binary_round prec emax s m e <> S754_nan.
Proof.
  unfold binary_round. destruct (shl_align m e _) as [mz ez].
  apply binary_round_aux_not_nan. lia.
Qed.

Lemma binary_normalize_not_nan (m e : Z) (sz : bool) :
  binary_normalize prec emax m e sz <> S754_nan.
Proof.
  unfold binary_normalize.
  destruct m; [discriminate | apply binary_round_not_nan ..].
Qed.

Lemma SFmul_finite_not_nan (x : spec_float) (s : bool) (m : positive) (e : Z) :
  x <> S754_nan -> SFmul prec emax x (S754_finite s m e) <> S754_nan.
Proof.
  intros Hx. destruct x as [sx | sx | | sx mx ex]; cbn [SFmul];
    [discriminate | discriminate | contradiction |].
  apply binary_round_aux_not_nan. lia.
Qed.

Lemma SFdiv_finite_not_nan (x : spec_float) (s : bool) (m : positive) (e : Z) :
  x <> S754_nan -> SFdiv prec emax x (S754_finite s m e) <> S754_nan.
Proof.
  intros Hx. destruct x as [sx | sx | | sx mx ex]; cbn [SFdiv];
    [discriminate | discriminate | contradiction |].
  unfold SFdiv_core_binary.
  set (e' := Z.min _ _). set (sh := ex - e - e').
  set (m' := match sh with
             | 0 => Zpos mx
             | Zpos _ => Z.shiftl (Zpos mx) sh
             | Zneg _ => 0
             end).
  assert (Hm' : 0 <= m').
  { subst m'. destruct sh; [lia | | lia]. apply Z.shiftl_nonneg. lia. }
  pose proof (Z.div_pos m' (Zpos m) Hm' ltac:(lia)) as Hq.
  unfold Z.div in Hq.
  destruct (Z.div_eucl m' (Zpos m)) as [q r]. cbn [fst] in Hq.
  apply binary_round_aux_not_nan. exact Hq.
Qed.

Lemma SFadd_finite_not_nan (x : spec_float) (s : bool) (m : positive) (e : Z) :
  x <> S754_nan -> SFadd prec emax x (S754_finite s m e) <> S754_nan.
Proof.
  intros Hx. destruct x as [sx | sx | | sx mx ex]; cbn [SFadd];
    [discriminate | discriminate | contradiction |].
  apply binary_normalize_not_nan.
Qed.

Lemma is_nan_false_Prim2SF (x : float) :
  PrimFloat.is_nan x = false <-> Prim2SF x <> S754_nan.
Proof.
  split.
  - intros H. unfold Prim2SF. rewrite H.
    destruct (is_zero x); [discriminate |].
    destruct (is_infinity x); [discriminate |].
    destruct (Z.frexp x) as [r ex].
    destruct (shr_fexp prec emax _ _ loc_Exact) as [sh e'].
    destruct (shr_m sh); discriminate.
  - intros H. destruct (PrimFloat.is_nan x) eqn:Hx; [| reflexivity].
    exfalso. apply H. apply is_nan_Prim2SF. exact Hx.
Qed.

(** A spec float other than NaN is read back as a double other than NaN. *)
Lemma SF2Prim_not_nan (r : spec_float) :
  r <> S754_nan -> PrimFloat.is_nan (SF2Prim r) = false.
Proof.
  intros Hr. destruct r as [s | s | | s m e];
    [destruct s; reflexivity | destruct s; reflexivity | contradiction |].
  cbn [SF2Prim].
  set (pm := of_uint63 (Uint63Axioms.of_Z (Zpos m))).
  assert (Hld : Prim2SF (Z.ldexp pm e) <> S754_nan).
  { rewrite Z_ldexp_spec. unfold pm. rewrite of_uint63_spec.
    pose proof (binary_normalize_not_nan
                  (Uint63Axioms.to_Z (Uint63Axioms.of_Z (Zpos m))) 0 false)
      as Hn.
    destruct (binary_normalize prec emax _ 0 false) as [s0 | s0 | | s0 m0 e0];
      cbn [SFldexp]; try discriminate; [contradiction |].
    apply binary_round_not_nan. }
  destruct s; apply is_nan_false_Prim2SF; [| exact Hld].
  rewrite opp_spec. destruct (Prim2SF (Z.ldexp pm e)); cbn [SFopp];
    try discriminate. contradiction.
Qed.

Lemma double_round_not_nan (x : float) (nd : Z) :
  PrimFloat.is_nan x = false -> PrimFloat.is_nan (double_round x nd) = false.
Proof.
  intros Hx. unfold double_round.
  destruct (Prim2SF x) as [s | s | | s m e]; try exact Hx.
  apply SF2Prim_not_nan. unfold sf_of_ratio.
  destruct (decimal_num _ nd); [discriminate | | discriminate].
  apply SFdiv_finite_not_nan. discriminate.
Qed.

Lemma Prim2SF_9 : exists s m e, Prim2SF 9 = S754_finite s m e.
Proof. do 3 eexists. vm_compute. reflexivity. Qed.

Lemma Prim2SF_5 : exists s m e, Prim2SF 5 = S754_finite s m e.
Proof. do 3 eexists. vm_compute. reflexivity. Qed.

Lemma Prim2SF_32 : exists s m e, Prim2SF 32 = S754_finite s m e.
Proof. do 3 eexists. vm_compute. reflexivity. Qed.

Lemma Prim2SF_25_4 :
  exists s m e, Prim2SF 0x1.9666666666666p+4 = S754_finite s m e.
Proof. do 3 eexists. vm_compute. reflexivity. Qed.

(** X15: the conversions never turn a number into NaN: for a float that is
    not NaN, [c_to_f] and [mm_to_in] return a float that is not NaN
    (possibly an infinity), so a month value of the outputs is null exactly
    when the source cell is NaN, and never NaN itself. *)
Theorem conversions_never_give_nan (x : float) :
  (PrimFloat.is_nan x = true ->
   c_to_f (PyFloat x) = Ok PyNone /\ mm_to_in (PyFloat x) = Ok PyNone)
  /\ (PrimFloat.is_nan x = false ->
      (exists y, c_to_f (PyFloat x) = Ok (PyFloat y)
                 /\ PrimFloat.is_nan y = false)
      /\ (exists y, mm_to_in (PyFloat x) = Ok (PyFloat y)
                    /\ PrimFloat.is_nan y = false)).
Proof.
  split; intros Hx.
  - unfold c_to_f, mm_to_in. cbn [is_none_or_nan]. rewrite Hx. split; reflexivity.
  - pose proof (proj1 (is_nan_false_Prim2SF x) Hx) as Hsf.
    destruct Prim2SF_9 as (s9 & m9 & e9 & H9).
    destruct Prim2SF_5 as (s5 & m5 & e5 & H5).
    destruct Prim2SF_32 as (s32 & m32 & e32 & H32).
    destruct Prim2SF_25_4 as (sd & md & ed & Hd).
    split; eexists.
    + split; [apply c_to_f_float; exact Hx |].
      apply double_round_not_nan, is_nan_false_Prim2SF.
      rewrite add_spec, H32. apply SFadd_finite_not_nan.
      rewrite div_spec, H5. apply SFdiv_finite_not_nan.
      rewrite mul_spec, H9. apply SFmul_finite_not_nan. exact Hsf.
    + split; [apply mm_to_in_float; exact Hx |].
      apply double_round_not_nan, is_nan_false_Prim2SF.
      rewrite div_spec, Hd. apply SFdiv_finite_not_nan. exact Hsf.
Qed.

(** ** The further properties on the sample data *)



Lemma fresh_table_resolved :
  resolve_locations Sample.geocoder Sample.fresh_table initial_env
  = (let cities' :=
       {| columns := ["City"; "Country"; "Lat"; "Lon"];
          rows := [with_coords Sample.lisbon_row
                               (PyFloat 38.75) (PyFloat (-9.125));
                   with_coords Sample.porto_row
                               (PyFloat 41.125) (PyFloat (-8.5));
                   with_coords Sample.springfield_row PyNone PyNone] |} in
     ({| stdout := [geocoding_notice; geocoding_done];
         geocoded := ["Lisbon, Portugal"; "Porto, Lusitania"; "Porto";
                      "Springfield, Nowhereland"; "Springfield"];
         fetched := [];
         written := [(DATA_CSV, CitiesCsv cities')];
         records := [];
         json_payload := [] |},
      Ok cities')).
Proof. vm_compute. reflexivity. Qed.

(** The table saved by a first run is not geocoded again, even by a
    geocoder that would now find Springfield. *)
Lemma resolve_locations_idempotent_witness :
  let cities' :=
    {| columns := ["City"; "Country"; "Lat"; "Lon"];
       rows := [with_coords Sample.lisbon_row
                            (PyFloat 38.75) (PyFloat (-9.125));
                with_coords Sample.porto_row
                            (PyFloat 41.125) (PyFloat (-8.5));
                with_coords Sample.springfield_row PyNone PyNone] |} in
  has_column "Lat" (columns cities') = true
  /\ has_column "Lon" (columns cities') = true
  /\ resolve_locations Sample.any_geocoder cities' initial_env
     = (initial_env, Ok cities').
Proof.
  exact (resolve_locations_idempotent Sample.geocoder Sample.any_geocoder
           Sample.fresh_table _ initial_env _ initial_env
           fresh_table_resolved).
Defined.



(** The frame labelled from 0 makes the fetch raise. *)
Lemma fetch_raises_on_missing_month_witness :
  exists msg,
    fetch_normals_for_point MoreSamples.zero_based_service
                            (PyFloat 38.75) (PyFloat (-9.125)) initial_env
    = (set_fetched initial_env [(PyFloat 38.75, PyFloat (-9.125))],
       Raise (KeyError msg)).
Proof.
  apply (fetch_raises_on_missing_month MoreSamples.zero_based_service
           (PyFloat 38.75) (PyFloat (-9.125)) initial_env
           MoreSamples.frame_from_zero 12).
  - reflexivity.
  - cbn. lia.
  - lia.
  - cbn. intros H. repeat (destruct H as [H | H]; [discriminate H |]). exact H.
  - reflexivity.
Defined.

Section RerunTheorems.

Variable geocode_service : list string -> string -> option Location.
Variable normals_service :
  list (pyval * pyval) -> pyval -> pyval -> result (option Frame).

(** X16: a run on a table that already has the Lat and the Lon column never
    queries the geocoder and never rewrites the cities table: the files it
    writes are either none or the three artifacts, the CSV, then the JSON,
    then the HTML page that embeds the JSON payload with the months and the
    default comfort range. *)
Theorem rerun_leaves_the_table_alone
        (cities : CitiesTable) (st : Env)
        (Hcols : has_column "Lat" (columns cities)
                 && has_column "Lon" (columns cities) = true) :
  let final := fst (main geocode_service normals_service cities st) in
  geocoded final = geocoded st
  /\ (written final = written st
      \/ exists recs payload,
          written final
          = written st
            ++ [(OUT_CSV, RecordsCsv recs); (OUT_JSON, JsonText payload);
                (OUT_HTML, HtmlPage payload MONTHS
                                    COMFORT_MIN_F COMFORT_MAX_F)]).
Proof.
  cbv zeta. rewrite main_as_emit.
  assert (Hprefix :
            fst ((cities' <~ resolve_locations geocode_service cities ;;
                  collect normals_service cities') st)
            = fst (for_each (rows cities) (process_city normals_service)
                            (fst (reset_accumulators st)))).
  { unfold bindM.
    rewrite (proj1 (resolve_locations_cases geocode_service cities st) Hcols).
    reflexivity. }
  rewrite Hprefix. clear Hprefix.
  destruct (for_each_keeps_files normals_service (rows cities)
              (fst (reset_accumulators st))) as [Hw Hg].
  set (st1 := fst (for_each (rows cities) (process_city normals_service)
                            (fst (reset_accumulators st)))) in *.
  change (written (fst (reset_accumulators st))) with (written st) in Hw.
  change (geocoded (fst (reset_accumulators st))) with (geocoded st) in Hg.
  destruct (emit_cases st1) as [Hnone Hsome].
  destruct (records st1) as [| r rs] eqn:Hr.
  - rewrite (Hnone eq_refl). cbn [fst set_stdout geocoded written].
    split; [exact Hg | left; exact Hw].
  - rewrite Hsome by discriminate. cbn [fst geocoded written].
    split; [exact Hg | right]. rewrite Hw. eexists. eexists. reflexivity.
Qed.

End RerunTheorems.

Lemma rerun_leaves_the_table_alone_witness :
  let final := fst (main Sample.any_geocoder Sample.normals_service
                         Sample.resolved_table initial_env) in
  geocoded final = geocoded initial_env
  /\ (written final = written initial_env
      \/ exists recs payload,
          written final
          = written initial_env
            ++ [(OUT_CSV, RecordsCsv recs); (OUT_JSON, JsonText payload);
                (OUT_HTML, HtmlPage payload MONTHS
                                    COMFORT_MIN_F COMFORT_MAX_F)]).
Proof.
  apply (rerun_leaves_the_table_alone Sample.any_geocoder
           Sample.normals_service Sample.resolved_table initial_env).
  reflexivity.
Defined.
